(** * galaxy_ng: the dynaconf post-load hook ([galaxy_ng/app/dynaconf_hooks.py])

    A shallow embedding of the settings pipeline run by [post], of the
    validation rules registered by [validate], and of the two read hooks
    that [configure_dynamic_settings] attaches to dynaconf's [get]
    ([read_settings_from_cache_or_db] and [alter_hostname_settings]),
    followed by the properties established for them. *)

From Stdlib Require Import ZArith String Ascii List Bool Lia.
From stdpp Require Import base option list strings gmap.

Set Warnings "-register-all".

Local Open Scope string_scope.
Local Open Scope Z_scope.

(** ** Python values *)

Module Py.

(** The values that settings hold.  Mappings nested inside a value keep
    their insertion order (an association list); an object of a foreign
    class is known by the name of its class and the arguments it was
    built from. *)
Inductive value : Type :=
| VNone
| VBool (b : bool)
| VInt (z : Z)
| VStr (s : string)
| VList (l : list value)
| VTuple (l : list value)
| VDict (d : list (value * value))
| VObj (cls : string) (args : list value).

(** [bool(v)] *)
Definition truthy (v : value) : bool :=
  match v with
  | VNone => false
  | VBool b => b
  | VInt z => negb (z =? 0)
  | VStr s => negb (String.eqb s "")
  | VList l | VTuple l => negb (Nat.eqb (length l) 0)
  | VDict d => negb (Nat.eqb (length d) 0)
  | VObj _ _ => true
  end.

(** [all(l)] *)
Definition all (l : list value) : bool := forallb truthy l.

(** [a == b]: a boolean compares as the integer it is, sequences compare
    element by element, mappings compare whatever the order of their
    items, and objects compare by what they were built from. *)
Fixpoint py_eq (a b : value) {struct a} : bool :=
  let fix seq_eq (xs ys : list value) {struct xs} : bool :=
    match xs, ys with
    | [], [] => true
    | x :: xs', y :: ys' => py_eq x y && seq_eq xs' ys'
    | _, _ => false
    end in
  let fix items_in (xs ys : list (value * value)) {struct xs} : bool :=
    match xs with
    | [] => true
    | (k, v) :: xs' =>
        existsb (fun kv => py_eq k (fst kv) && py_eq v (snd kv)) ys
        && items_in xs' ys
    end in
  match a, b with
  | VNone, VNone => true
  | VBool x, VBool y => Bool.eqb x y
  | VBool x, VInt y => Z.b2z x =? y
  | VInt x, VBool y => x =? Z.b2z y
  | VInt x, VInt y => x =? y
  | VStr x, VStr y => String.eqb x y
  | VList xs, VList ys => seq_eq xs ys
  | VTuple xs, VTuple ys => seq_eq xs ys
  | VDict xs, VDict ys => Nat.eqb (length xs) (length ys) && items_in xs ys
  | VObj c xs, VObj c' ys => String.eqb c c' && seq_eq xs ys
  | _, _ => false
  end.

(** [x in l] and [x not in l] for a list [l] *)
Definition py_in (x : value) (l : list value) : bool := existsb (py_eq x) l.
Definition not_in (x : value) (l : list value) : bool := negb (py_in x l).

(** [l.count(x)] *)
Definition count (x : value) (l : list value) : nat :=
  length (List.filter (fun y => py_eq y x) l).

(** [l.remove(x)]: drops the first item equal to [x] (the caller has
    checked that there is one). *)
Fixpoint remove (x : value) (l : list value) : list value :=
  match l with
  | [] => []
  | y :: l' => if py_eq y x then l' else y :: remove x l'
  end.

(** [l.insert(0, x)] *)
Definition insert0 (x : value) (l : list value) : list value := x :: l.

(** [d.get(k)] and [d[k] = v] on a nested mapping *)
Fixpoint dict_get (d : list (value * value)) (k : value) : option value :=
  match d with
  | [] => None
  | (k', v) :: d' => if py_eq k' k then Some v else dict_get d' k
  end.

Fixpoint dict_set (d : list (value * value)) (k v : value) : list (value * value) :=
  match d with
  | [] => [(k, v)]
  | (k', v') :: d' => if py_eq k' k then (k', v) :: d' else (k', v') :: dict_set d' k v
  end.

(** [s.upper()], on ASCII letters *)
Definition upper_ascii (c : ascii) : ascii :=
  let n := nat_of_ascii c in
  if (Nat.leb 97 n && Nat.leb n 122)%bool then ascii_of_nat (n - 32) else c.

Fixpoint upper (s : string) : string :=
  match s with
  | EmptyString => EmptyString
  | String c s' => String (upper_ascii c) (upper s')
  end.

(** [s.endswith(suffix)] *)
Definition endswith (s suffix : string) : bool :=
  let n := String.length s in
  let m := String.length suffix in
  (Nat.leb m n && String.eqb (substring (n - m) m s) suffix)%bool.

(** [s.strip("/")] *)
Fixpoint lstrip_slash (s : string) : string :=
  match s with
  | String "/"%char s' => lstrip_slash s'
  | _ => s
  end.

Fixpoint rstrip_slash (s : string) : string :=
  match s with
  | EmptyString => EmptyString
  | String c s' =>
      match rstrip_slash s' with
      | EmptyString => if Ascii.eqb c "/"%char then EmptyString else String c EmptyString
      | r => String c r
      end
  end.

Definition strip_slash (s : string) : string := rstrip_slash (lstrip_slash s).

(** [s.split("__")[0]] *)
Fixpoint before_dunder (s : string) : string :=
  match s with
  | String "_"%char (String "_"%char _) => EmptyString
  | String c s' => String c (before_dunder s')
  | EmptyString => EmptyString
  end.

(** [str(v)] for the scalars an f-string is given here; the text of a
    container or of an object is left to [repr]. *)
Definition digit (n : nat) : string := String (ascii_of_nat (48 + n)) EmptyString.

Fixpoint pos_digits (fuel : nat) (n : N) (acc : string) : string :=
  match fuel with
  | O => acc
  | S fuel' =>
      let acc' := digit (N.to_nat (n mod 10)%N) ++ acc in
      if (n <? 10)%N then acc' else pos_digits fuel' (n / 10)%N acc'
  end.

Definition int_str (z : Z) : string :=
  let n := Z.abs_N z in
  let body := pos_digits (S (N.to_nat (N.log2 n))) n "" in
  if z <? 0 then "-" ++ body else body.

Definition str (repr : value -> string) (v : value) : string :=
  match v with
  | VNone => "None"
  | VBool true => "True"
  | VBool false => "False"
  | VInt z => int_str z
  | VStr s => s
  | _ => repr v
  end.

End Py.

Import Py.

(** ** Exceptions, results and the effects of a call *)

Inductive exn : Type :=
| AttributeError (what : string)
| KeyError (key : string)
| TypeError (what : string)
| ValueError (what : string)
| ImportError (message : string)
| ValidationError (name : string) (operation : string)
| DynaconfFormatError (message : string)
| DynaconfParseError (message : string)
| Foreign (cls : string) (message : string).

Inductive result (A : Type) : Type :=
| Ok (a : A)
| Raise (e : exn).
Arguments Ok {A} a.
Arguments Raise {A} e.

Definition is_ok {A} (r : result A) : bool :=
  match r with Ok _ => true | Raise _ => false end.

Inductive level : Type := DEBUG | INFO | ERROR.

(** What a call leaves behind outside the settings: a record handed to
    [logger], a read of the settings cache, a read of the settings table. *)
Inductive event : Type :=
| Log (lvl : level) (fmt : string) (args : list value)
| CacheRead
| DbRead.

(** ** The settings object

    A [Dynaconf] instance is its key-value store and the validators
    registered on it.  [get] looks a name up as the source spells it. *)

Inductive operation : Type :=
| OpEq (v : value)              (* eq=v *)
| OpIsIn (vs : list value).     (* is_in=vs *)

Inductive Validator : Type :=
| MkValidator (name : string) (must_exist : option bool)
              (operations : list operation) (when : option Validator).

Record Dynaconf : Type := {
  store : gmap string value;
  validators : list Validator
}.

Definition get (s : Dynaconf) (key : string) (dflt : value) : value :=
  default dflt (store s !! key).

(** [settings[key] = v] as in-place mutation of the object [get] returned *)
Definition set_store (s : Dynaconf) (key : string) (v : value) : Dynaconf :=
  {| store := <[key := v]> (store s); validators := validators s |}.

Record state : Type := {
  settings : Dynaconf;
  trace : list event
}.

(** A computation reads and mutates the settings object it was given,
    leaves events, and returns or raises. *)
Definition M (A : Type) : Type := state -> result A * state.

Definition ret {A} (a : A) : M A := fun st => (Ok a, st).
Definition raise {A} (e : exn) : M A := fun st => (Raise e, st).
Definition bind {A B} (c : M A) (k : A -> M B) : M B :=
  fun st =>
    match c st with
    | (Ok a, st') => k a st'
    | (Raise e, st') => (Raise e, st')
    end.

Notation "'let*' x ':=' c 'in' k" := (bind c (fun x => k))
  (at level 10, x name, c at level 100, k at level 200).
Notation "c '>>' k" := (bind c (fun _ => k))
  (at level 100, k at level 200, right associativity).

Definition lift {A} (r : result A) : M A := fun st => (r, st).
Definition emit (e : event) : M unit :=
  fun st => (Ok tt, {| settings := settings st; trace := trace st ++ [e] |}).
Definition when_ (b : bool) (c : M unit) : M unit := if b then c else ret tt.

(** [settings.get(key, default)] *)
Definition sget (key : string) (dflt : value) : M value :=
  fun st => (Ok (get (settings st) key dflt), st).

(** [settings.KEY] *)
Definition sattr (key : string) : M value :=
  fun st =>
    match store (settings st) !! key with
    | Some v => (Ok v, st)
    | None => (Raise (AttributeError key), st)
    end.

(** The object that [settings.get(key, ...)] returned was mutated in
    place: the store sees the new contents when the object came from it,
    not when it was the default of the call. *)
Definition mutated (key : string) (v : value) : M unit :=
  fun st =>
    match store (settings st) !! key with
    | Some _ => (Ok tt, {| settings := set_store (settings st) key v; trace := trace st |})
    | None => (Ok tt, st)
    end.

(** A mapping with string keys, as the hooks build and return it. *)
Abbreviation dict := (gmap string value).

(** [data.update(d)] *)
Definition update (data d : dict) : dict := d ∪ data.

(** [data.get(key)] *)
Definition dget (data : dict) (key : string) : value := default VNone (data !! key).

(** ** Collaborators

    What the hooks call but do not define: the process environment, the
    constants of [python-ldap], library calls whose result is all the hooks
    use, the [ansible_base] settings subsystem, and, for the read hooks,
    the state of the running application. *)

Record LdapConsts : Type := {
  OPT_X_TLS_REQUIRE_CERT : Z;
  OPT_X_TLS_NEVER : Z;
  OPT_REFERRALS : Z;
  SCOPE_BASE : Z;
  SCOPE_ONELEVEL : Z;
  SCOPE_SUBTREE : Z
}.

Record Env : Type := {
  (* os.environ *)
  environ : gmap string string;
  ldap : LdapConsts;
  (* the text an f-string gives a container or an object *)
  repr : value -> string;
  (* os.path.join(base, name) *)
  path_join : value -> string -> result value;
  (* EntryPoint(name=None, group=None, value=classpath).load() *)
  entry_point_load : value -> result value;
  (* a class called with a mapping as its keyword arguments *)
  construct : value -> value -> result value;
  (* json.loads(text) *)
  json_loads : string -> result value;
  (* int(text) *)
  int_of_str : string -> result Z;
  (* ansible_base.lib.dynamic_config *)
  toggle_feature_flags : Dynaconf -> result dict;
  factory : result Dynaconf;
  load_dab_settings : Dynaconf -> result Dynaconf;
  load_standard_settings_files : Dynaconf -> result Dynaconf;
  dab_validate : Dynaconf -> result unit;
  (* Dynaconf.update(mapping), Dynaconf.set(key, value) *)
  dynaconf_update : Dynaconf -> dict -> result Dynaconf;
  dynaconf_set : Dynaconf -> string -> value -> result Dynaconf;
  (* django.apps.apps.ready *)
  apps_ready : bool;
  (* crum.get_current_request(): the headers of the request, if any *)
  current_request : option (gmap string string);
  (* galaxy_ng.app.tasks.settings_cache *)
  get_settings_from_cache : result value;
  get_settings_from_db : result value;
  (* the names in galaxy_ng.app.dynamic_settings.DYNAMIC_SETTINGS_SCHEMA *)
  DYNAMIC_SETTINGS_SCHEMA : list string;
  (* None when dynaconf has method hooking, else the text of the ImportError *)
  hooking_import : option string;
  (* temp_settings.update(data, loader_identifier=metadata, tomlfy=True):
     the settings it leaves and the exception it raised, if any *)
  temp_update : Dynaconf -> value -> Dynaconf * option exn
}.

(** ** Small helpers shared by the hooks *)

Definition DAB_SERVICE_BACKED_REDIRECT : string :=
  "ansible_base.resource_registry.utils.service_backed_sso_pipeline.redirect_to_resource_server".

Definition strs (l : list string) : list value := map VStr l.

(** A mapping literal with string keys *)
Definition sdict (l : list (string * value)) : value :=
  VDict (map (fun kv => (VStr (fst kv), snd kv)) l).

(** [hash(v)] succeeds *)
Fixpoint hashable (v : value) : bool :=
  match v with
  | VList _ | VDict _ => false
  | VTuple l => forallb hashable l
  | _ => true
  end.

(** [obj[k] = v]; only a mapping takes the assignment here. *)
Definition setitem (obj k v : value) : result value :=
  match obj with
  | VDict d =>
      if hashable k then Ok (VDict (dict_set d k v))
      else Raise (TypeError "unhashable key")
  | _ => Raise (TypeError "item assignment")
  end.

(** [obj.append(x)] *)
Definition append (obj x : value) : result value :=
  match obj with
  | VList l => Ok (VList (l ++ [x]))
  | _ => Raise (AttributeError "append")
  end.

(** [for x in v]: the items a loop or a comprehension goes through *)
Definition iter (v : value) : result (list value) :=
  match v with
  | VList l | VTuple l => Ok l
  | VDict d => Ok (map fst d)
  | VStr s => Ok (map (fun c => VStr (String c EmptyString)) (list_ascii_of_string s))
  | _ => Raise (TypeError "not iterable")
  end.

(** [VNone] is the only value that [is None] *)
Definition is_none (v : value) : bool :=
  match v with VNone => true | _ => false end.

(** [v is True] *)
Definition is_True (v : value) : bool :=
  match v with VBool true => true | _ => false end.

(** ** The hooks *)

Section Hooks.

Context (E : Env).

(** [os.getenv(name, default)] *)
Definition getenv (name : string) (dflt : value) : value :=
  match environ E !! name with
  | Some s => VStr s
  | None => dflt
  end.

(** The text of a value inside an f-string or [str.format] *)
Definition fstr (v : value) : string := str (repr E) v.

Definition configure_keycloak : M dict :=
  let data : dict := ∅ in
  let* SOCIAL_AUTH_KEYCLOAK_KEY := sget "SOCIAL_AUTH_KEYCLOAK_KEY" VNone in
  let* SOCIAL_AUTH_KEYCLOAK_SECRET := sget "SOCIAL_AUTH_KEYCLOAK_SECRET" VNone in
  let* SOCIAL_AUTH_KEYCLOAK_PUBLIC_KEY := sget "SOCIAL_AUTH_KEYCLOAK_PUBLIC_KEY" VNone in
  let* KEYCLOAK_PROTOCOL := sget "KEYCLOAK_PROTOCOL" VNone in
  let* KEYCLOAK_HOST := sget "KEYCLOAK_HOST" VNone in
  let* KEYCLOAK_PORT := sget "KEYCLOAK_PORT" VNone in
  let* KEYCLOAK_REALM := sget "KEYCLOAK_REALM" VNone in
  if all [SOCIAL_AUTH_KEYCLOAK_KEY; SOCIAL_AUTH_KEYCLOAK_SECRET;
          SOCIAL_AUTH_KEYCLOAK_PUBLIC_KEY; KEYCLOAK_HOST; KEYCLOAK_PORT;
          KEYCLOAK_REALM]
  then
    let data := <["GALAXY_AUTH_KEYCLOAK_ENABLED" := VBool true]> data in
    let* admin_role := sget "KEYCLOAK_ADMIN_ROLE" (VStr "hubadmin") in
    let data := <["KEYCLOAK_ADMIN_ROLE" := admin_role]> data in
    let* group_claim := sget "KEYCLOAK_GROUP_TOKEN_CLAIM" (VStr "group") in
    let data := <["KEYCLOAK_GROUP_TOKEN_CLAIM" := group_claim]> data in
    let* role_claim := sget "KEYCLOAK_GROUP_TOKEN_CLAIM" (VStr "client_roles") in
    let data := <["KEYCLOAK_ROLE_TOKEN_CLAIM" := role_claim]> data in
    let* host_loopback := sget "KEYCLOAK_HOST_LOOPBACK" VNone in
    let data := <["KEYCLOAK_HOST_LOOPBACK" := host_loopback]> data in
    let KEYCLOAK_URL :=
      fstr KEYCLOAK_PROTOCOL ++ "://" ++ fstr KEYCLOAK_HOST ++ ":" ++ fstr KEYCLOAK_PORT in
    let data := <["KEYCLOAK_URL" := VStr KEYCLOAK_URL]> data in
    let auth_url (keycloak : string) : string :=
      keycloak ++ "/auth/realms/" ++ fstr KEYCLOAK_REALM
      ++ "/protocol/openid-connect/auth/" in
    let data := <["SOCIAL_AUTH_KEYCLOAK_AUTHORIZATION_URL" := VStr (auth_url KEYCLOAK_URL)]> data in
    let data :=
      if truthy host_loopback then
        let loopback_url :=
          fstr KEYCLOAK_PROTOCOL ++ "://" ++ fstr host_loopback ++ ":" ++ fstr KEYCLOAK_PORT in
        <["SOCIAL_AUTH_KEYCLOAK_AUTHORIZATION_URL" := VStr (auth_url loopback_url)]> data
      else data in
    let data :=
      <["SOCIAL_AUTH_KEYCLOAK_ACCESS_TOKEN_URL" :=
          VStr (KEYCLOAK_URL ++ "/auth/realms/" ++ fstr KEYCLOAK_REALM
                ++ "/protocol/openid-connect/token/")]> data in
    let* redirect := sget "SOCIAL_AUTH_LOGIN_REDIRECT_URL" (VStr "/ui/") in
    let data := <["SOCIAL_AUTH_LOGIN_REDIRECT_URL" := redirect]> data in
    let data := <["SOCIAL_AUTH_JSONFIELD_ENABLED" := VBool true]> data in
    let data := <["SOCIAL_AUTH_URL_NAMESPACE" := VStr "social"]> data in
    let data :=
      <["SOCIAL_AUTH_KEYCLOAK_EXTRA_DATA" :=
          VList [VTuple [VStr "refresh_token"; VStr "refresh_token"];
                 VTuple [role_claim; role_claim]]]> data in
    let data :=
      <["SOCIAL_AUTH_PIPELINE" :=
          VTuple (strs [
            "social_core.pipeline.social_auth.social_details";
            "social_core.pipeline.social_auth.social_uid";
            "social_core.pipeline.social_auth.social_user";
            "social_core.pipeline.user.get_username";
            "social_core.pipeline.social_auth.associate_by_email";
            "social_core.pipeline.user.create_user";
            "social_core.pipeline.social_auth.associate_user";
            "social_core.pipeline.social_auth.load_extra_data";
            "social_core.pipeline.user.user_details";
            "galaxy_ng.app.pipelines.user_role";
            "galaxy_ng.app.pipelines.user_group";
            DAB_SERVICE_BACKED_REDIRECT])]> data in
    let data := <["GALAXY_FEATURE_FLAGS__external_authentication" := VBool true]> data in
    let data :=
      <["INSTALLED_APPS" :=
          VList (strs ["automated_logging"; "social_django"; "dynaconf_merge_unique"])]> data in
    let data :=
      <["AUTHENTICATION_BACKENDS" :=
          VList (strs ["social_core.backends.keycloak.KeycloakOAuth2"; "dynaconf_merge"])]> data in
    let* expiration := sget "GALAXY_TOKEN_EXPIRATION" (VInt 1440) in
    let data := <["GALAXY_TOKEN_EXPIRATION" := expiration]> data in
    let* BASE_DIR := sattr "BASE_DIR" in
    let* templates_dir := lift (path_join E BASE_DIR "templates") in
    let data :=
      <["TEMPLATES" :=
          VList [sdict [
            ("BACKEND", VStr "django.template.backends.django.DjangoTemplates");
            ("DIRS", VList [templates_dir]);
            ("APP_DIRS", VBool true);
            ("OPTIONS", sdict [
               ("context_processors", VList (strs [
                  "django.template.context_processors.debug";
                  "django.template.context_processors.request";
                  "django.contrib.auth.context_processors.auth";
                  "django.contrib.messages.context_processors.messages";
                  "social_django.context_processors.backends";
                  "social_django.context_processors.login_redirect"]))])]]]> data in
    ret data
  else ret data.

Definition session_token_basic : value :=
  VList (strs ["galaxy_ng.app.auth.session.SessionAuthentication";
               "rest_framework.authentication.TokenAuthentication";
               "rest_framework.authentication.BasicAuthentication"]).

Definition configure_socialauth : M dict :=
  let data : dict := ∅ in
  let* SOCIAL_AUTH_GITHUB_KEY := sget "SOCIAL_AUTH_GITHUB_KEY" VNone in
  let* SOCIAL_AUTH_GITHUB_SECRET := sget "SOCIAL_AUTH_GITHUB_SECRET" VNone in
  if all [SOCIAL_AUTH_GITHUB_KEY; SOCIAL_AUTH_GITHUB_SECRET] then
    let data := <["INSTALLED_APPS" := VList (strs ["social_django"; "dynaconf_merge_unique"])]> data in
    let data := <["GALAXY_FEATURE_FLAGS__external_authentication" := VBool true]> data in
    let* backends := sget "AUTHENTICATION_BACKENDS" (VList []) in
    let* backends := lift (append backends (VStr "galaxy_ng.social.GalaxyNGOAuth2")) in
    mutated "AUTHENTICATION_BACKENDS" backends >>
    let* backends := lift (append backends (VStr "dynaconf_merge")) in
    mutated "AUTHENTICATION_BACKENDS" backends >>
    let data := <["AUTHENTICATION_BACKENDS" := backends]> data in
    let data := <["DEFAULT_AUTHENTICATION_BACKENDS" := backends]> data in
    let data := <["GALAXY_AUTHENTICATION_BACKENDS" := backends]> data in
    let data := <["DEFAULT_AUTHENTICATION_CLASSES" := session_token_basic]> data in
    let data := <["GALAXY_AUTHENTICATION_CLASSES" := session_token_basic]> data in
    let data := <["REST_FRAMEWORK_AUTHENTICATION_CLASSES" := session_token_basic]> data in
    let data :=
      <["SOCIAL_AUTH_PIPELINE" :=
          VList (strs [
            "social_core.pipeline.social_auth.social_details";
            "social_core.pipeline.social_auth.social_uid";
            "social_core.pipeline.social_auth.auth_allowed";
            "social_core.pipeline.social_auth.social_user";
            "galaxy_ng.social.pipeline.user.get_username";
            "galaxy_ng.social.pipeline.user.create_user";
            "social_core.pipeline.social_auth.associate_user";
            "social_core.pipeline.social_auth.load_extra_data";
            "social_core.pipeline.user.user_details";
            DAB_SERVICE_BACKED_REDIRECT])]> data in
    ret data
  else ret data.

Definition configure_logging : M dict :=
  let* enabled :=
    sget "GALAXY_ENABLE_API_ACCESS_LOG"
         (getenv "GALAXY_ENABLE_API_ACCESS_LOG" (VBool false)) in
  let data : dict := {[ "GALAXY_ENABLE_API_ACCESS_LOG" := enabled ]} in
  if truthy enabled then
    let data :=
      <["INSTALLED_APPS" :=
          VList (strs ["galaxy_ng._vendor.automated_logging"; "dynaconf_merge_unique"])]> data in
    let data :=
      <["MIDDLEWARE" :=
          VList (strs ["automated_logging.middleware.AutomatedLoggingMiddleware";
                       "dynaconf_merge"])]> data in
    let data :=
      <["LOGGING" := sdict [
          ("version", VInt 1);
          ("disable_existing_loggers", VBool false);
          ("formatters", sdict [
             ("automated_logging",
              sdict [("format", VStr "%(asctime)s: %(levelname)s: %(message)s")])]);
          ("handlers", sdict [
             ("automated_logging", sdict [
                ("level", VStr "INFO");
                ("class", VStr "logging.handlers.WatchedFileHandler");
                ("filename", VStr "/var/log/galaxy_api_access.log");
                ("formatter", VStr "automated_logging")])]);
          ("loggers", sdict [
             ("automated_logging", sdict [
                ("handlers", VList [VStr "automated_logging"]);
                ("level", VStr "INFO");
                ("propagate", VBool false)])]);
          ("dynaconf_merge", VBool true)]]> data in
    let data :=
      <["AUTOMATED_LOGGING" := sdict [
          ("globals", sdict [
             ("exclude", sdict [
                ("applications", VList (strs [
                   "plain:contenttypes"; "plain:admin"; "plain:basehttp";
                   "glob:session*"; "plain:migrations"]))])]);
          ("model", sdict [
             ("detailed_message", VBool true);
             ("exclude", sdict [
                ("applications", VList []); ("fields", VList []);
                ("models", VList []); ("unknown", VBool false)]);
             ("loglevel", VInt 20);
             ("mask", VList []);
             ("max_age", VNone);
             ("performance", VBool false);
             ("snapshot", VBool false);
             ("user_mirror", VBool false)]);
          ("modules", VList (strs ["request"; "unspecified"; "model"]));
          ("request", sdict [
             ("data", sdict [
                ("content_types", VList [VStr "application/json"]);
                ("enabled", VList []);
                ("ignore", VList []);
                ("mask", VList (strs [
                   "ca_cert"; "client_cert"; "client_key"; "email"; "password";
                   "proxy_url"; "proxy_username"; "proxy_password"; "token";
                   "username"]));
                ("query", VBool true)]);
             ("exclude", sdict [
                ("applications", VList []); ("methods", VList []);
                ("status", VList []); ("unknown", VBool false)]);
             ("ip", VBool true);
             ("loglevel", VInt 20);
             ("max_age", VNone)]);
          ("unspecified", sdict [
             ("exclude", sdict [
                ("applications", VList []); ("files", VList []);
                ("unknown", VBool false)]);
             ("loglevel", VInt 20);
             ("max_age", VNone)])]]> data in
    ret data
  else ret data.

(** [[x] + v] *)
Definition list_concat (l : list value) (v : value) : result value :=
  match v with
  | VList l' => Ok (VList (l ++ l'))
  | _ => Raise (TypeError "can only concatenate list to list")
  end.

Definition configure_cors : M dict :=
  if is_none (getenv "DEV_SOURCE_PATH" VNone) then ret ∅
  else
    let data : dict := ∅ in
    let* enable := sget "GALAXY_ENABLE_CORS" (VBool false) in
    if truthy enable then
      let corsmiddleware := [VStr "galaxy_ng.app.common.openapi.AllowCorsMiddleware"] in
      let* middleware := sget "MIDDLEWARE" (VList []) in
      let* merged := lift (list_concat corsmiddleware middleware) in
      ret (<["MIDDLEWARE" := merged]> data)
    else ret data.

Definition configure_pulp_ansible : M dict :=
  let* distro_path := sget "GALAXY_API_DEFAULT_DISTRIBUTION_BASE_PATH" (VStr "published") in
  ret (<["ANSIBLE_DEFAULT_DISTRIBUTION_PATH" := distro_path]>
       {[ "ANSIBLE_URL_NAMESPACE" := VStr "galaxy:api:v3:" ]}).

(** [re.search(r'galaxy(-dev|-stage)*.ansible.com', s)] finds a match:
    somewhere in [s] stands "galaxy", then any number of "-dev" or
    "-stage", then one character that is not a newline, then "ansible",
    one more such character, and "com". *)
Definition drop_prefix (p s : string) : option string :=
  if String.prefix p s
  then Some (substring (String.length p) (String.length s - String.length p) s)
  else None.

Definition any_char (s : string) : option string :=
  match s with
  | String c s' => if Ascii.eqb c "010"%char then None else Some s'
  | EmptyString => None
  end.

Definition matches_tail (s : string) : bool :=
  match any_char s with
  | Some s1 =>
      match drop_prefix "ansible" s1 with
      | Some s2 =>
          match any_char s2 with
          | Some s3 => String.prefix "com" s3
          | None => false
          end
      | None => false
      end
  | None => false
  end.

Fixpoint matches_star (fuel : nat) (s : string) : bool :=
  match fuel with
  | O => matches_tail s
  | S fuel' =>
      match drop_prefix "-dev" s with
      | Some s' => matches_star fuel' s'
      | None => false
      end
      || match drop_prefix "-stage" s with
         | Some s' => matches_star fuel' s'
         | None => false
         end
      || matches_tail s
  end.

Fixpoint search_from (fuel : nat) (s : string) : bool :=
  match drop_prefix "galaxy" s with
  | Some s' => matches_star (String.length s') s'
  | None => false
  end
  || match fuel, s with
     | S fuel', String _ s' => search_from fuel' s'
     | _, _ => false
     end.

Definition community_origin (s : string) : bool := search_from (String.length s) s.

Definition configure_renderers : M dict :=
  let* origin := sget "CONTENT_ORIGIN" (VStr "") in
  match origin with
  | VStr s =>
      if community_origin s then
        let* value := sget "REST_FRAMEWORK__DEFAULT_RENDERER_CLASSES" (VList []) in
        let* value :=
          lift (append value (VStr "galaxy_ng.app.renderers.CustomBrowsableAPIRenderer")) in
        mutated "REST_FRAMEWORK__DEFAULT_RENDERER_CLASSES" value >>
        ret {[ "REST_FRAMEWORK__DEFAULT_RENDERER_CLASSES" := value ]}
      else ret ∅
  | _ => raise (TypeError "expected string or bytes-like object")
  end.

(** [int(v)] *)
Definition py_int (v : value) : result Z :=
  match v with
  | VInt z => Ok z
  | VBool b => Ok (Z.b2z b)
  | VStr s => int_of_str E s
  | _ => Raise (TypeError "int() argument")
  end.

(** The body of the loop of [configure_password_validators] for one item:
    the item as the body leaves it, and the exception it raised, if any. *)
Definition set_min_length (min_length dict_item : value) : value * option exn :=
  match dict_item with
  | VDict d =>
      match dict_get d (VStr "NAME") with
      | None => (dict_item, Some (KeyError "NAME"))
      | Some (VStr name) =>
          if endswith name "MinimumLengthValidator" then
            match py_int min_length with
            | Raise e => (dict_item, Some e)
            | Ok n =>
                match dict_get d (VStr "OPTIONS") with
                | None => (dict_item, Some (KeyError "OPTIONS"))
                | Some options =>
                    match setitem options (VStr "min_length") (VInt n) with
                    | Raise e => (dict_item, Some e)
                    | Ok options' =>
                        (VDict (dict_set d (VStr "OPTIONS") options'), None)
                    end
                end
            end
          else (dict_item, None)
      | Some _ => (dict_item, Some (AttributeError "endswith"))
      end
  | _ => (dict_item, Some (TypeError "not subscriptable"))
  end.

Fixpoint set_min_lengths (min_length : value) (items : list value)
  : list value * option exn :=
  match items with
  | [] => ([], None)
  | item :: rest =>
      match set_min_length min_length item with
      | (item', Some e) => (item' :: rest, Some e)
      | (item', None) =>
          let '(rest', e) := set_min_lengths min_length rest in
          (item' :: rest', e)
      end
  end.

Definition configure_password_validators : M dict :=
  let* GALAXY_MINIMUM_PASSWORD_LENGTH := sget "GALAXY_MINIMUM_PASSWORD_LENGTH" (VInt 9) in
  let* AUTH_PASSWORD_VALIDATORS := sattr "AUTH_PASSWORD_VALIDATORS" in
  match AUTH_PASSWORD_VALIDATORS with
  | VList items =>
      let '(items', e) := set_min_lengths GALAXY_MINIMUM_PASSWORD_LENGTH items in
      mutated "AUTH_PASSWORD_VALIDATORS" (VList items') >>
      match e with
      | Some e => raise e
      | None => ret {[ "AUTH_PASSWORD_VALIDATORS" := VList items' ]}
      end
  | _ => raise (TypeError "AUTH_PASSWORD_VALIDATORS is not a list")
  end.

Definition configure_api_base_path : M dict :=
  let* galaxy_api_root := sget "GALAXY_API_PATH_PREFIX" VNone in
  match galaxy_api_root with
  | VStr root => ret {[ "API_ROOT" := VStr ("/" ++ strip_slash root ++ "/pulp/") ]}
  | _ => raise (AttributeError "strip")
  end.

Definition configure_legacy_roles : M dict :=
  let data : dict := ∅ in
  let* legacy_roles := sget "GALAXY_ENABLE_LEGACY_ROLES" (VBool false) in
  ret (<["GALAXY_FEATURE_FLAGS__legacy_roles" := legacy_roles]> data).

(** [AUTH_LDAP_SCOPE_MAP.get(scope, ldap.SCOPE_SUBTREE)] *)
Definition scope_map_get (scope : value) : result Z :=
  if hashable scope then
    Ok (if py_eq scope (VStr "BASE") then SCOPE_BASE (ldap E)
        else if py_eq scope (VStr "ONELEVEL") then SCOPE_ONELEVEL (ldap E)
        else if py_eq scope (VStr "SUBTREE") then SCOPE_SUBTREE (ldap E)
        else SCOPE_SUBTREE (ldap E))
  else Raise (TypeError "unhashable type").

(** [LDAPSearch(base_dn, scope, filterstr)] *)
Definition LDAPSearch (base_dn : value) (scope : Z) (filterstr : value) : value :=
  VObj "django_auth_ldap.config.LDAPSearch" [base_dn; VInt scope; filterstr].

Definition configure_ldap : M dict :=
  let data : dict := ∅ in
  let* AUTH_LDAP_SERVER_URI := sget "AUTH_LDAP_SERVER_URI" VNone in
  let* AUTH_LDAP_BIND_DN := sget "AUTH_LDAP_BIND_DN" VNone in
  let* AUTH_LDAP_BIND_PASSWORD := sget "AUTH_LDAP_BIND_PASSWORD" VNone in
  let* AUTH_LDAP_USER_SEARCH_BASE_DN := sget "AUTH_LDAP_USER_SEARCH_BASE_DN" VNone in
  let* AUTH_LDAP_USER_SEARCH_SCOPE := sget "AUTH_LDAP_USER_SEARCH_SCOPE" VNone in
  let* AUTH_LDAP_USER_SEARCH_FILTER := sget "AUTH_LDAP_USER_SEARCH_FILTER" VNone in
  let* AUTH_LDAP_GROUP_SEARCH_BASE_DN := sget "AUTH_LDAP_GROUP_SEARCH_BASE_DN" VNone in
  let* AUTH_LDAP_GROUP_SEARCH_SCOPE := sget "AUTH_LDAP_GROUP_SEARCH_SCOPE" VNone in
  let* AUTH_LDAP_GROUP_SEARCH_FILTER := sget "AUTH_LDAP_GROUP_SEARCH_FILTER" VNone in
  let* AUTH_LDAP_USER_ATTR_MAP := sget "AUTH_LDAP_USER_ATTR_MAP" (VDict []) in
  if all [AUTH_LDAP_SERVER_URI; AUTH_LDAP_BIND_DN; AUTH_LDAP_BIND_PASSWORD;
          AUTH_LDAP_USER_SEARCH_BASE_DN; AUTH_LDAP_USER_SEARCH_SCOPE;
          AUTH_LDAP_USER_SEARCH_FILTER; AUTH_LDAP_GROUP_SEARCH_BASE_DN;
          AUTH_LDAP_GROUP_SEARCH_SCOPE; AUTH_LDAP_GROUP_SEARCH_FILTER]
  then
    let data := <["GALAXY_AUTH_LDAP_ENABLED" := VBool true]> data in
    let* global_options := sget "AUTH_LDAP_GLOBAL_OPTIONS" (VDict []) in
    let* self_signed := sget "GALAXY_LDAP_SELF_SIGNED_CERT" VNone in
    let* global_options :=
      if truthy self_signed then
        let* o := lift (setitem global_options
                          (VInt (OPT_X_TLS_REQUIRE_CERT (ldap E)))
                          (VInt (OPT_X_TLS_NEVER (ldap E)))) in
        mutated "AUTH_LDAP_GLOBAL_OPTIONS" o >> ret o
      else ret global_options in
    let data := <["AUTH_LDAP_GLOBAL_OPTIONS" := global_options]> data in
    let* user_search := sget "AUTH_LDAP_USER_SEARCH" VNone in
    let* data :=
      if negb (truthy user_search) then
        let* user_scope := lift (scope_map_get AUTH_LDAP_USER_SEARCH_SCOPE) in
        ret (<["AUTH_LDAP_USER_SEARCH" :=
                 LDAPSearch AUTH_LDAP_USER_SEARCH_BASE_DN user_scope
                            AUTH_LDAP_USER_SEARCH_FILTER]> data)
      else ret data in
    let* group_search := sget "AUTH_LDAP_GROUP_SEARCH" VNone in
    let* data :=
      if negb (truthy group_search) then
        let* group_scope := lift (scope_map_get AUTH_LDAP_GROUP_SEARCH_SCOPE) in
        ret (<["AUTH_LDAP_GROUP_SEARCH" :=
                 LDAPSearch AUTH_LDAP_GROUP_SEARCH_BASE_DN group_scope
                            AUTH_LDAP_GROUP_SEARCH_FILTER]> data)
      else ret data in
    let* classpath :=
      sget "AUTH_LDAP_GROUP_TYPE_CLASS" (VStr "django_auth_ldap.config:GroupOfNamesType") in
    let* data :=
      if truthy classpath then
        let* group_type_class := lift (entry_point_load E classpath) in
        let* group_type_params :=
          sget "AUTH_LDAP_GROUP_TYPE_PARAMS" (sdict [("name_attr", VStr "cn")]) in
        let* group_type := lift (construct E group_type_class group_type_params) in
        ret (<["AUTH_LDAP_GROUP_TYPE" := group_type]> data)
      else ret data in
    let data :=
      match AUTH_LDAP_USER_ATTR_MAP with
      | VStr text =>
          match json_loads E text with
          | Ok v => <["AUTH_LDAP_USER_ATTR_MAP" := v]> data
          | Raise _ => <["AUTH_LDAP_USER_ATTR_MAP" := VDict []]> data
          end
      | _ => data
      end in
    let* ldap_logging := sget "GALAXY_LDAP_LOGGING" VNone in
    let data :=
      if truthy ldap_logging then
        <["LOGGING" := sdict [
            ("dynaconf_merge", VBool true);
            ("version", VInt 1);
            ("disable_existing_loggers", VBool false);
            ("handlers", sdict [
               ("console", sdict [("class", VStr "logging.StreamHandler")])]);
            ("loggers", sdict [
               ("django_auth_ldap", sdict [
                  ("level", VStr "DEBUG");
                  ("handlers", VList [VStr "console"])])])]]> data
      else data in
    let* connection_options := sget "AUTH_LDAP_CONNECTION_OPTIONS" (VDict []) in
    let* disable_referrals := sget "GALAXY_LDAP_DISABLE_REFERRALS" VNone in
    let* connection_options :=
      if truthy disable_referrals then
        let* o := lift (setitem connection_options
                          (VInt (OPT_REFERRALS (ldap E))) (VInt 0)) in
        mutated "AUTH_LDAP_CONNECTION_OPTIONS" o >> ret o
      else ret connection_options in
    let data := <["AUTH_LDAP_CONNECTION_OPTIONS" := connection_options]> data in
    let* mirror := sget "GALAXY_LDAP_MIRROR_ONLY_EXISTING_GROUPS" VNone in
    let data :=
      if truthy mirror then
        <["AUTH_LDAP_MIRROR_GROUPS_EXCEPT" := VNone]>
          (<["AUTH_LDAP_MIRROR_GROUPS" := VBool true]> data)
      else data in
    ret data
  else ret data.

(** The handle of a [Dynaconf] instance stored as a value under a key *)
Definition dynaconf_object (name : string) : value :=
  VObj "dynaconf.Dynaconf" [VStr name].

Definition configure_dab_required_settings (data : dict) : M dict :=
  let* dab_dynaconf := lift (factory E) in
  let* as_dict := (fun st => (Ok (store (settings st)), st)) in
  let* dab_dynaconf := lift (dynaconf_update E dab_dynaconf as_dict) in
  let* dab_dynaconf := lift (dynaconf_update E dab_dynaconf data) in
  let* dab_dynaconf :=
    lift (dynaconf_set E dab_dynaconf "INSTALLED_APPS"
            (VStr "@merge_unique ansible_base.jwt_consumer")) in
  let* dab_dynaconf := lift (load_dab_settings E dab_dynaconf) in
  let* INSTALLED_APPS :=
    match store dab_dynaconf !! "INSTALLED_APPS" with
    | Some v => ret v
    | None => raise (AttributeError "INSTALLED_APPS")
    end in
  let* apps := lift (iter INSTALLED_APPS) in
  let* dab_dynaconf :=
    lift (dynaconf_set E dab_dynaconf "INSTALLED_APPS"
            (VList (List.filter
                      (fun app => negb (py_eq app (VStr "ansible_base.jwt_consumer")))
                      apps))) in
  let* dab_dynaconf := lift (load_standard_settings_files E dab_dynaconf) in
  lift (dab_validate E dab_dynaconf) >>
  let data := store dab_dynaconf in
  let data := <["DAB_DYNACONF" := dynaconf_object "DAB_DYNACONF"]> data in
  ret data.

(** *** Authentication backends

    Backends that are not a list are followed as far as a tuple that
    already holds the prefixed backend; any other value makes one of the
    list operations raise (which exception it is, is not told apart). *)

Definition prefix_backend : string :=
  "ansible_base.lib.backends.prefixed_user_auth.PrefixedUserAuthBackend".

(** [backends.extend([item for item in incoming if item not in backends])]:
    the comprehension is built in full before the list grows. *)
Definition extend_unique (backends incoming : list value) : list value :=
  backends ++ List.filter (fun item => not_in item backends) incoming.

(** The same statement on whatever the settings hold: the backends have
    to be a list and the incoming value iterable. *)
Definition extend_unique_value (backends incoming : value) : result value :=
  match backends with
  | VList l =>
      match iter incoming with
      | Ok items => Ok (VList (extend_unique l items))
      | Raise e => Raise e
      end
  | _ => Raise (AttributeError "extend")
  end.

(** [if prefix_backend not in backends: backends.append(prefix_backend)] *)
Definition append_prefix_backend (backends : list value) : list value :=
  if not_in (VStr prefix_backend) backends
  then backends ++ [VStr prefix_backend]
  else backends.

(** The rebinding that leaves one "dynaconf_merge", moved to the end *)
Definition dedupe_dynaconf_merge (backends : list value) : list value :=
  if (1 <? count (VStr "dynaconf_merge") backends)%nat
  then List.filter (fun x => negb (py_eq x (VStr "dynaconf_merge"))) backends
       ++ [VStr "dynaconf_merge"]
  else backends.

Definition configure_authentication_backends (data : dict) : M dict :=
  let* backends := sget "AUTHENTICATION_BACKENDS" (VList []) in
  let* backends :=
    match data !! "AUTHENTICATION_BACKENDS" with
    | Some default_list =>
        if is_none default_list then ret backends
        else
          let* b := lift (extend_unique_value backends default_list) in
          mutated "AUTHENTICATION_BACKENDS" b >> ret b
    | None => ret backends
    end in
  let* preset_name := sget "AUTHENTICATION_BACKEND_PRESET" VNone in
  let* presets := sattr "AUTHENTICATION_BACKEND_PRESETS_DATA" in
  let* preset_list :=
    match presets with
    | VDict d =>
        if hashable preset_name then ret (default VNone (dict_get d preset_name))
        else raise (TypeError "unhashable type")
    | _ => raise (AttributeError "get")
    end in
  let* backends :=
    if is_none preset_list then ret backends
    else
      let* b := lift (extend_unique_value backends preset_list) in
      mutated "AUTHENTICATION_BACKENDS" b >> ret b in
  match backends with
  | VList l =>
      let l := append_prefix_backend l in
      mutated "AUTHENTICATION_BACKENDS" (VList l) >>
      let l := dedupe_dynaconf_merge l in
      if (0 <? length l)%nat
      then ret (<["AUTHENTICATION_BACKENDS" := VList l]> data)
      else ret data
  | VTuple l =>
      if py_in (VStr prefix_backend) l then
        if (1 <? count (VStr "dynaconf_merge") l)%nat
        then ret (<["AUTHENTICATION_BACKENDS" := VList (dedupe_dynaconf_merge l)]> data)
        else ret (<["AUTHENTICATION_BACKENDS" := VTuple l]> data)
      else raise (AttributeError "append")
  | _ => raise (TypeError "AUTHENTICATION_BACKENDS")
  end.

(** *** Authentication classes *)

Definition galaxy_session : string := "galaxy_ng.app.auth.session.SessionAuthentication".

(** The loop that puts the keycloak classes in front when they are missing *)
Definition add_keycloak_classes (classes : list value) : list value :=
  fold_left
    (fun l class_name => if not_in (VStr class_name) l then insert0 (VStr class_name) l else l)
    ["galaxy_ng.app.auth.token.ExpiringTokenAuthentication";
     "galaxy_ng.app.auth.keycloak.KeycloakBasicAuth"]
    classes.

(** The statement that moves the session class to the front *)
Definition session_first (classes : list value) : list value :=
  match classes with
  | first :: _ =>
      if negb (py_eq first (VStr galaxy_session)) then
        let classes :=
          if py_in (VStr galaxy_session) classes
          then remove (VStr galaxy_session) classes
          else classes in
        insert0 (VStr galaxy_session) classes
      else classes
  | [] => []
  end.

Definition consolidate (keycloak_enabled : bool) (classes : list value) : list value :=
  session_first (if keycloak_enabled then add_keycloak_classes classes else classes).

(** The two steps call no method of the list: nothing to add, and either
    no item or the session class first. *)
Definition consolidate_is_noop (keycloak_enabled : bool) (classes : list value) : bool :=
  (negb keycloak_enabled
   || (py_in (VStr "galaxy_ng.app.auth.token.ExpiringTokenAuthentication") classes
       && py_in (VStr "galaxy_ng.app.auth.keycloak.KeycloakBasicAuth") classes))
  && match classes with
     | first :: _ => py_eq first (VStr galaxy_session)
     | [] => true
     end.

Definition set_authentication_classes (classes : list value) (data : dict) : dict :=
  <["REST_FRAMEWORK__DEFAULT_AUTHENTICATION_CLASSES" := VList classes]>
    (<["GALAXY_AUTHENTICATION_CLASSES" := VList classes]>
       (<["ANSIBLE_AUTHENTICATION_CLASSES" := VList classes]> data)).

(** A class list that is not a list goes through untouched when it is
    falsy and keycloak is off, and as a tuple that needs no change; any
    other makes one of the list operations raise (which exception it is,
    is not told apart). *)
Definition configure_authentication_classes (data : dict) : M dict :=
  let* from_settings := sget "GALAXY_AUTHENTICATION_CLASSES" VNone in
  let galaxy_auth_classes := default from_settings (data !! "GALAXY_AUTHENTICATION_CLASSES") in
  let galaxy_auth_classes :=
    if is_none galaxy_auth_classes then VList [] else galaxy_auth_classes in
  let keycloak_enabled := is_True (dget data "GALAXY_AUTH_KEYCLOAK_ENABLED") in
  match galaxy_auth_classes with
  | VList classes =>
      let classes := consolidate keycloak_enabled classes in
      let* data :=
        match data !! "GALAXY_AUTHENTICATION_CLASSES" with
        | Some v =>
            if is_none v then ret data
            else ret (<["GALAXY_AUTHENTICATION_CLASSES" := VList classes]> data)
        | None =>
            (if is_none from_settings then ret tt
             else mutated "GALAXY_AUTHENTICATION_CLASSES" (VList classes)) >>
            ret data
        end in
      if (0 <? length classes)%nat
      then ret (set_authentication_classes classes data)
      else ret data
  | VTuple classes =>
      if consolidate_is_noop keycloak_enabled classes then
        if (0 <? length classes)%nat
        then ret (set_authentication_classes classes data)
        else ret data
      else raise (AttributeError "insert")
  | other =>
      if negb (truthy other) && negb keycloak_enabled then ret data
      else raise (TypeError "GALAXY_AUTHENTICATION_CLASSES")
  end.

(** *** Validation

    [dynaconf.Validator], as far as the two rules use it: a validator
    with a [when] validator is checked only if that one passes; a name
    the settings do not hold is passed over unless it must exist; each
    operation is then applied to the value. *)

Definition operation_name (op : operation) : string :=
  match op with
  | OpEq _ => "eq"
  | OpIsIn _ => "is_in"
  end.

Definition operation_holds (value : value) (op : operation) : bool :=
  match op with
  | OpEq other => py_eq value other
  | OpIsIn other => py_in value other
  end.

Fixpoint check_operations (name : string) (value : value) (ops : list operation)
  : result unit :=
  match ops with
  | [] => Ok tt
  | op :: ops' =>
      if operation_holds value op then check_operations name value ops'
      else Raise (ValidationError name (operation_name op))
  end.

Definition validate_items (s : Dynaconf) (name : string) (must_exist : option bool)
    (ops : list operation) : result unit :=
  match store s !! name, must_exist with
  | None, Some true => Raise (ValidationError name "must_exist_true")
  | None, _ => Ok tt
  | Some _, Some false => Raise (ValidationError name "must_exist_false")
  | Some value, _ => check_operations name value ops
  end.

Fixpoint validator_validate (s : Dynaconf) (v : Validator) : result unit :=
  match v with
  | MkValidator name must_exist ops when =>
      match when with
      | Some w =>
          match validator_validate s w with
          | Ok _ => validate_items s name must_exist ops
          | Raise (ValidationError _ _) => Ok tt
          | Raise e => Raise e
          end
      | None => validate_items s name must_exist ops
      end
  end.

(** [settings.validators.validate()]: in the order of registration, up to
    the first validator that raises. *)
Fixpoint validate_all (s : Dynaconf) (vs : list Validator) : result unit :=
  match vs with
  | [] => Ok tt
  | v :: vs' =>
      match validator_validate s v with
      | Ok _ => validate_all s vs'
      | Raise e => Raise e
      end
  end.

(** [Validator.__eq__] *)
Definition option_eqb {A} (eqb : A -> A -> bool) (a b : option A) : bool :=
  match a, b with
  | Some x, Some y => eqb x y
  | None, None => true
  | _, _ => false
  end.

Definition operation_eqb (a b : operation) : bool :=
  match a, b with
  | OpEq x, OpEq y => py_eq x y
  | OpIsIn x, OpIsIn y => py_eq (VList x) (VList y)
  | _, _ => false
  end.

Fixpoint list_eqb {A} (eqb : A -> A -> bool) (xs ys : list A) : bool :=
  match xs, ys with
  | [], [] => true
  | x :: xs', y :: ys' => eqb x y && list_eqb eqb xs' ys'
  | _, _ => false
  end.

Fixpoint validator_eqb (a b : Validator) : bool :=
  match a, b with
  | MkValidator n m ops w, MkValidator n' m' ops' w' =>
      String.eqb n n' && option_eqb Bool.eqb m m' && list_eqb operation_eqb ops ops'
      && match w, w' with
         | Some x, Some y => validator_eqb x y
         | None, None => true
         | _, _ => false
         end
  end.

(** [settings.validators.register(v)] *)
Definition register (v : Validator) : M unit :=
  fun st =>
    let s := settings st in
    if existsb (validator_eqb v) (validators s) then (Ok tt, st)
    else (Ok tt, {| settings := {| store := store s; validators := validators s ++ [v] |};
                    trace := trace st |}).

Definition content_approval_off : Validator :=
  MkValidator "GALAXY_REQUIRE_CONTENT_APPROVAL" None [OpEq (VBool false)] None.

Definition signature_rule : Validator :=
  MkValidator "GALAXY_REQUIRE_SIGNATURE_FOR_APPROVAL" None [OpEq (VBool false)]
    (Some content_approval_off).

Definition preset_rule (preset_names : list value) : Validator :=
  MkValidator "AUTHENTICATION_BACKEND_PRESET" None
    [OpIsIn ([VStr "local"; VStr "custom"] ++ preset_names)] None.

Definition validate : M unit :=
  register signature_rule >>
  let* presets := sget "AUTHENTICATION_BACKEND_PRESETS_DATA" (VDict []) in
  match presets with
  | VDict d =>
      register (preset_rule (map fst d)) >>
      fun st => (validate_all (settings st) (validators (settings st)), st)
  | _ => raise (AttributeError "keys")
  end.

(** *** Dynamic settings *)

(** [[_k.split("__")[0] for _k in data]] *)
Fixpoint key_heads (keys : list value) : result (list string) :=
  match keys with
  | [] => Ok []
  | VStr k :: rest =>
      match key_heads rest with
      | Ok heads => Ok (before_dunder k :: heads)
      | Raise e => Raise e
      end
  | _ :: _ => Raise (AttributeError "split")
  end.

(** [read_settings_from_cache_or_db(temp_settings, value, key)]: the
    settings of the state are [temp_settings], [value] is [value.value]. *)
Definition read_settings_from_cache_or_db (value : value) (key : string) : M Py.value :=
  if negb (apps_ready E) || negb (bool_decide (upper key ∈ DYNAMIC_SETTINGS_SCHEMA E))
  then ret value
  else
    emit CacheRead >>
    let* cached := lift (get_settings_from_cache E) in
    let* found :=
      if truthy cached then ret (cached, "cache")
      else
        emit DbRead >>
        let* stored := lift (get_settings_from_db E) in
        ret (stored, "db") in
    let data := fst found in
    let identifier := snd found in
    (if truthy data then
       fun st =>
         let '(temp_settings, raised) := temp_update E (settings st) data in
         let st' := {| settings := temp_settings; trace := trace st |} in
         match raised with
         | None => (Ok tt, st')
         | Some (DynaconfFormatError m) | Some (DynaconfParseError m) =>
             emit (Log ERROR "Error loading dynamic settings: %s" [VStr m]) st'
         | Some e => (Raise e, st')
         end
     else ret tt) >>
    (if negb (truthy data) then
       emit (Log DEBUG "Dynamic settings are empty, reading key %s from default sources"
               [VStr key])
     else
       let* keys := lift (iter data) in
       let* heads := lift (key_heads keys) in
       if bool_decide (key ∈ heads) then
         emit (Log DEBUG "Dynamic setting for key: %s loaded from %s"
                 [VStr key; VStr identifier])
       else
         emit (Log DEBUG "Key %s not on db/cache, %s other keys loaded from %s"
                 [VStr key; VInt (Z.of_nat (length keys)); VStr identifier])) >>
    sget key value.

Definition ALLOWED_KEYS : list string :=
  ["CONTENT_ORIGIN"; "ANSIBLE_API_HOSTNAME"; "TOKEN_SERVER"].

(** [headers.get(name, default)] *)
Definition header (headers : gmap string string) (name dflt : string) : string :=
  default dflt (headers !! name).

Definition alter_hostname_settings (value : value) (key : string) : M Py.value :=
  if negb (apps_ready E) || negb (bool_decide (upper key ∈ ALLOWED_KEYS))
  then ret value
  else
    match current_request E with
    | Some headers =>
        let proto := header headers "X-Forwarded-Proto" "http" in
        let host := header headers "Host" "localhost:5001" in
        let baseurl := proto ++ "://" ++ host in
        let baseurl :=
          if String.eqb (upper key) "TOKEN_SERVER" then baseurl ++ "/token/" else baseurl in
        ret (VStr baseurl)
    | None => ret value
    end.

(** The names bound in [configure_dynamic_settings] when its loop runs *)
Definition locals : list string :=
  ["settings"; "enabled_hooks"; "DynaconfFormatError"; "DynaconfParseError";
   "Settings"; "Action"; "Hook"; "HookValue"; "SourceMetadata";
   "read_settings_from_cache_or_db"; "alter_hostname_settings";
   "hook_functions"; "func_name"].

(** [Hook(locals()[func_name])] *)
Definition Hook (func_name : value) : result value :=
  match func_name with
  | VStr name =>
      if bool_decide (name ∈ locals)
      then Ok (VObj "dynaconf.hooking.Hook" [VStr name])
      else Raise (KeyError name)
  | other =>
      if hashable other then Raise (KeyError (fstr other))
      else Raise (TypeError "unhashable type")
  end.

Fixpoint hooks_of (func_names : list value) : result (list value) :=
  match func_names with
  | [] => Ok []
  | func_name :: rest =>
      match Hook func_name with
      | Ok h =>
          match hooks_of rest with
          | Ok hs => Ok (h :: hs)
          | Raise e => Raise e
          end
      | Raise e => Raise e
      end
  end.

Definition configure_dynamic_settings : M dict :=
  let* enabled_hooks := sget "DYNACONF_AFTER_GET_HOOKS" VNone in
  if negb (truthy enabled_hooks) then ret ∅
  else
    match hooking_import E with
    | Some exc =>
        emit (Log ERROR
                ("Galaxy Dynamic Settings requires Dynaconf >=3.2.3, "
                 ++ "system will work normally but dynamic settings from database will be ignored: %s")
                [VStr exc]) >>
        ret ∅
    | None =>
        emit (Log INFO "Enabling Dynamic Settings Feature" []) >>
        let* func_names := lift (iter enabled_hooks) in
        let* hook_functions := lift (hooks_of func_names) in
        ret {[ "_registered_hooks" :=
                 VDict [(VObj "dynaconf.hooking.Action.AFTER_GET" [], VList hook_functions)] ]}
    end.

(** *** The instance for the [dynaconf] command line *)

Definition is_dynaconf (v : value) : bool :=
  match v with
  | VObj cls _ => String.eqb cls "dynaconf.Dynaconf"
  | _ => false
  end.

Definition configure_dynaconf_cli (data : dict) : M dict :=
  match data !! "DAB_DYNACONF" with
  | None =>
      raise (AttributeError
               ("DAB_DYNACONF not found in settings "
                ++ "configure_dab_required_settings "
                ++ "must be called before configure_dynaconf_cli"))
  | Some dab_dynaconf =>
      if is_dynaconf dab_dynaconf
      then ret (<["CLI_DYNACONF" := dynaconf_object "CLI_DYNACONF"]> data)
      else raise (AttributeError "_loaded_files")
  end.

(** *** The post hook

    [data.update(d)] for each hook in the order of the source.  A list or
    mapping that a hook took from the settings and changed in place has
    its new contents written back to the store ([mutated]), so a later
    [settings.get] sees them; a value in the returned update is the
    contents its object had when it was put there.  The mapping that
    [configure_dab_required_settings] returns is made of new objects
    ([as_dict] of the secondary instance), which replace what the earlier
    hooks had put under the same keys. *)

Definition post (run_dynamic run_validate : bool) : M dict :=
  let data : dict := {[ "dynaconf_merge" := VBool false ]} in
  let* d := configure_ldap in let data := update data d in
  let* d := configure_logging in let data := update data d in
  let* d := configure_keycloak in let data := update data d in
  let* d := configure_socialauth in let data := update data d in
  let* d := configure_cors in let data := update data d in
  let* d := configure_pulp_ansible in let data := update data d in
  let* d := configure_renderers in let data := update data d in
  let* d := configure_password_validators in let data := update data d in
  let* d := configure_api_base_path in let data := update data d in
  let* d := configure_legacy_roles in let data := update data d in
  let* d := configure_dab_required_settings data in let data := update data d in
  let* d := (fun st => (toggle_feature_flags E (settings st), st)) in
  let data := update data d in
  let* data := configure_authentication_backends data in
  let* data := configure_authentication_classes data in
  let* url := sget "RESOURCE_SERVER__URL" VNone in
  let data := <["IS_CONNECTED_TO_RESOURCE_SERVER" := VBool (negb (is_none url))]> data in
  let* data :=
    if run_dynamic then
      let* d := configure_dynamic_settings in ret (update data d)
    else ret data in
  (if run_validate then validate else ret tt) >>
  let* data := configure_dynaconf_cli data in
  ret data.

End Hooks.

(** ** A concrete environment

    No environment variable, no request, an empty cache and table, the
    usual constants of OpenLDAP, and collaborators that do the least: a
    store update that replaces key by key, loaders that add nothing. *)

Definition replace_update (d : Dynaconf) (m : dict) : Dynaconf :=
  {| store := m ∪ store d; validators := validators d |}.

Definition dict_items (d : list (value * value)) : dict :=
  fold_left
    (fun m kv => match fst kv with VStr k => <[k := snd kv]> m | _ => m end)
    d ∅.

Definition plain_env : Env := {|
  environ := ∅;
  ldap := {| OPT_X_TLS_REQUIRE_CERT := 24582; OPT_X_TLS_NEVER := 0;
             OPT_REFERRALS := 8; SCOPE_BASE := 0; SCOPE_ONELEVEL := 1;
             SCOPE_SUBTREE := 2 |};
  repr := fun _ => "<object>";
  path_join := fun base name =>
    match base with
    | VStr b => Ok (VStr (b ++ "/" ++ name))
    | _ => Raise (TypeError "expected str")
    end;
  entry_point_load := fun classpath => Ok (VObj "type" [classpath]);
  construct := fun cls params => Ok (VObj "instance" [cls; params]);
  json_loads := fun _ => Raise (ValueError "json");
  int_of_str := fun _ => Raise (ValueError "int");
  toggle_feature_flags := fun _ => Ok ∅;
  factory := Ok {| store := ∅; validators := [] |};
  load_dab_settings := fun d => Ok d;
  load_standard_settings_files := fun d => Ok d;
  dab_validate := fun _ => Ok tt;
  dynaconf_update := fun d m => Ok (replace_update d m);
  dynaconf_set := fun d k v =>
    match v with
    | VStr "@merge_unique ansible_base.jwt_consumer" =>
        Ok (set_store d k
              (match store d !! k with
               | Some (VList l) => VList (l ++ [VStr "ansible_base.jwt_consumer"])
               | _ => VList [VStr "ansible_base.jwt_consumer"]
               end))
    | _ => Ok (set_store d k v)
    end;
  apps_ready := true;
  current_request := None;
  get_settings_from_cache := Ok VNone;
  get_settings_from_db := Ok VNone;
  DYNAMIC_SETTINGS_SCHEMA := ["GALAXY_REQUIRE_CONTENT_APPROVAL"; "GALAXY_SIGNATURE_UPLOAD_ENABLED"];
  hooking_import := None;
  temp_update := fun d data =>
    match data with
    | VDict items => (replace_update d (dict_items items), None)
    | _ => (d, Some (TypeError "update"))
    end
|}.

Definition settings_of (items : list (string * value)) : Dynaconf :=
  {| store := list_to_map items; validators := [] |}.

Definition start (s : Dynaconf) : state := {| settings := s; trace := [] |}.

(** What a call returned under a key, if it returned *)
Definition returned (key : string) (r : result dict * state) : option value :=
  match fst r with
  | Ok data => data !! key
  | Raise _ => None
  end.

(** The least settings with which [post] goes through *)
Definition base_settings : list (string * value) :=
  [("GALAXY_API_PATH_PREFIX", VStr "/api/galaxy");
   ("AUTH_PASSWORD_VALIDATORS", VList []);
   ("AUTHENTICATION_BACKEND_PRESET", VStr "local");
   ("AUTHENTICATION_BACKEND_PRESETS_DATA", VDict []);
   ("AUTHENTICATION_BACKENDS", VList [VStr "django.contrib.auth.backends.ModelBackend"])].

(** ** Notions and sample inputs of the statements *)

(** A computation [keeps] a key when it leaves the store's entry for it
    as it found it, whether it returns or raises. *)
Definition keeps (key : string) {A} (c : M A) : Prop :=
  forall st, store (settings (snd (c st))) !! key = store (settings st) !! key.


(** [base_settings] with a resource server *)
Definition resource_settings : Dynaconf :=
  settings_of (("RESOURCE_SERVER__URL", VStr "https://gateway.example.org") :: base_settings).

(** [others x l]: the items of [l] other than [x], in their order *)
Definition others (x : value) (l : list value) : list value :=
  List.filter (fun y => negb (py_eq y x)) l.

Definition GAC : string := "GALAXY_AUTHENTICATION_CLASSES".

(** One of the two classes that keycloak brings *)
Definition keycloak_class (x : value) : Prop :=
  x = VStr "galaxy_ng.app.auth.token.ExpiringTokenAuthentication"
  \/ x = VStr "galaxy_ng.app.auth.keycloak.KeycloakBasicAuth".

(** An update in which the session class is second *)
Definition misplaced_session : dict :=
  {[ GAC := VList [VStr "rest_framework.authentication.TokenAuthentication";
                   VStr galaxy_session;
                   VStr "rest_framework.authentication.BasicAuthentication"] ]}.



(** Settings under which content approval is required *)
Definition approval_required : Dynaconf :=
  settings_of [("GALAXY_REQUIRE_CONTENT_APPROVAL", VBool true);
               ("GALAXY_REQUIRE_SIGNATURE_FOR_APPROVAL", VBool true);
               ("AUTHENTICATION_BACKEND_PRESET", VStr "local")].

Definition PRESET : string := "AUTHENTICATION_BACKEND_PRESET".

(** Settings that select one of two registered presets *)
Definition ldap_preset : Dynaconf :=
  settings_of
    [("AUTHENTICATION_BACKEND_PRESET", VStr "ldap");
     ("AUTHENTICATION_BACKEND_PRESETS_DATA",
      sdict [("ldap", VList [VStr "galaxy_ng.app.auth.ldap.PrefixedLDAPBackend"]);
             ("keycloak", VList [VStr "social_core.backends.keycloak.KeycloakOAuth2"])])].

(** [plain_env] in another state of the running application *)
Definition running (ready : bool) (request : option (gmap string string))
    (cache db : result value) (import : option string) : Env := {|
  environ := environ plain_env;
  ldap := ldap plain_env;
  repr := repr plain_env;
  path_join := path_join plain_env;
  entry_point_load := entry_point_load plain_env;
  construct := construct plain_env;
  json_loads := json_loads plain_env;
  int_of_str := int_of_str plain_env;
  toggle_feature_flags := toggle_feature_flags plain_env;
  factory := factory plain_env;
  load_dab_settings := load_dab_settings plain_env;
  load_standard_settings_files := load_standard_settings_files plain_env;
  dab_validate := dab_validate plain_env;
  dynaconf_update := dynaconf_update plain_env;
  dynaconf_set := dynaconf_set plain_env;
  apps_ready := ready;
  current_request := request;
  get_settings_from_cache := cache;
  get_settings_from_db := db;
  DYNAMIC_SETTINGS_SCHEMA := DYNAMIC_SETTINGS_SCHEMA plain_env;
  hooking_import := import;
  temp_update := temp_update plain_env
|}.

(** The record [configure_dynamic_settings] logs when the imports fail *)
Definition degradation_notice (exc : string) : event :=
  Log ERROR
    ("Galaxy Dynamic Settings requires Dynaconf >=3.2.3, "
     ++ "system will work normally but dynamic settings from database will be ignored: %s")
    [VStr exc].

(** [st] with further events behind those it has *)
Definition logged (st : state) (events : list event) : state :=
  {| settings := settings st; trace := trace st ++ events |}.

(** The imports of dynaconf's method hooking are reached, which takes
    DYNACONF_AFTER_GET_HOOKS to be set, and fail with [exc]. *)
Definition imports_fail (E : Env) (st : state) (exc : string) : Prop :=
  truthy (get (settings st) "DYNACONF_AFTER_GET_HOOKS" VNone) = true
  /\ hooking_import E = Some exc.







Definition approval_key : string := "GALAXY_REQUIRE_CONTENT_APPROVAL".




(** Settings with both keycloak and GitHub configured *)
Definition keycloak_and_github : Dynaconf :=
  settings_of
    [("SOCIAL_AUTH_KEYCLOAK_KEY", VStr "galaxy");
     ("SOCIAL_AUTH_KEYCLOAK_SECRET", VStr "secret");
     ("SOCIAL_AUTH_KEYCLOAK_PUBLIC_KEY", VStr "public");
     ("KEYCLOAK_PROTOCOL", VStr "https");
     ("KEYCLOAK_HOST", VStr "sso.example.org");
     ("KEYCLOAK_PORT", VInt 8443);
     ("KEYCLOAK_REALM", VStr "aap");
     ("BASE_DIR", VStr "/app");
     ("SOCIAL_AUTH_GITHUB_KEY", VStr "gh-key");
     ("SOCIAL_AUTH_GITHUB_SECRET", VStr "gh-secret");
     ("AUTHENTICATION_BACKEND_PRESET", VStr "local");
     ("AUTHENTICATION_BACKEND_PRESETS_DATA", VDict []);
     ("AUTHENTICATION_BACKENDS", VList [VStr "django.contrib.auth.backends.ModelBackend"])].




(** ** Notions of the further properties *)

(** The settings whose lists and mappings the hooks change in place *)
Definition changed_in_place : list string :=
  ["AUTHENTICATION_BACKENDS"; "REST_FRAMEWORK__DEFAULT_RENDERER_CLASSES";
   "AUTH_PASSWORD_VALIDATORS"; "AUTH_LDAP_GLOBAL_OPTIONS";
   "AUTH_LDAP_CONNECTION_OPTIONS"; "GALAXY_AUTHENTICATION_CLASSES"].

(** [m'] holds the keys of [m], with the values of [m] outside [keys] *)
Definition in_place (keys : list string) (m m' : gmap string value) : Prop :=
  (forall key, is_Some (m' !! key) <-> is_Some (m !! key))
  /\ (forall key, key ∉ keys -> m' !! key = m !! key).

(** A computation that changes the store in place, and only under [keys],
    whether it returns or raises *)
Definition changes_only (keys : list string) {A} (c : M A) : Prop :=
  forall st, in_place keys (store (settings st)) (store (settings (snd (c st)))).

(** The six values that [configure_keycloak] wants, all given *)
Definition keycloak_required (s : Dynaconf) : bool :=
  all [get s "SOCIAL_AUTH_KEYCLOAK_KEY" VNone;
       get s "SOCIAL_AUTH_KEYCLOAK_SECRET" VNone;
       get s "SOCIAL_AUTH_KEYCLOAK_PUBLIC_KEY" VNone;
       get s "KEYCLOAK_HOST" VNone;
       get s "KEYCLOAK_PORT" VNone;
       get s "KEYCLOAK_REALM" VNone].

(** [proto://host:port] as the f-string writes it *)
Definition keycloak_base (E : Env) (s : Dynaconf) (host : value) : string :=
  fstr E (get s "KEYCLOAK_PROTOCOL" VNone) ++ "://" ++ fstr E host ++ ":"
  ++ fstr E (get s "KEYCLOAK_PORT" VNone).

(** The path of an endpoint of the realm *)
Definition realm_path (E : Env) (s : Dynaconf) (last : string) : string :=
  "/auth/realms/" ++ fstr E (get s "KEYCLOAK_REALM" VNone)
  ++ "/protocol/openid-connect/" ++ last.

(** Settings with keycloak configured and no BASE_DIR *)
Definition keycloak_without_base_dir : Dynaconf :=
  settings_of
    [("SOCIAL_AUTH_KEYCLOAK_KEY", VStr "galaxy");
     ("SOCIAL_AUTH_KEYCLOAK_SECRET", VStr "secret");
     ("SOCIAL_AUTH_KEYCLOAK_PUBLIC_KEY", VStr "public");
     ("KEYCLOAK_HOST", VStr "sso.example.org");
     ("KEYCLOAK_PORT", VInt 8443);
     ("KEYCLOAK_REALM", VStr "aap")].




Definition ACCESS_LOG : string := "GALAXY_ENABLE_API_ACCESS_LOG".

(** What [configure_logging] takes for the switch: the settings first, the
    environment next, [False] last. *)
Definition access_log_switch (E : Env) (s : Dynaconf) : value :=
  match store s !! ACCESS_LOG, environ E !! ACCESS_LOG with
  | Some v, _ => v
  | None, Some text => VStr text
  | None, None => VBool false
  end.

(** The middleware that [configure_cors] puts first *)
Definition cors_middleware : value :=
  VStr "galaxy_ng.app.common.openapi.AllowCorsMiddleware".

(** The class that has to come first *)
Definition SESSION : value := VStr galaxy_session.

(** The class list that [configure_authentication_classes] starts from,
    when it is a list or is not there *)
Definition class_list (v : value) : option (list value) :=
  match v with
  | VNone => Some []
  | VList l => Some l
  | _ => None
  end.

Definition APV : string := "AUTH_PASSWORD_VALIDATORS".

(** [item["NAME"]] of a validator entry *)
Definition validator_name (item : value) : option string :=
  match item with
  | VDict d =>
      match dict_get d (VStr "NAME") with
      | Some (VStr name) => Some name
      | _ => None
      end
  | _ => None
  end.

(** The entry is the one whose name ends with "MinimumLengthValidator" *)
Definition is_min_length (item : value) : bool :=
  match validator_name item with
  | Some name => endswith name "MinimumLengthValidator"
  | None => false
  end.

(** [item["OPTIONS"]["min_length"]] *)
Definition min_length_of (item : value) : option value :=
  match item with
  | VDict d =>
      match dict_get d (VStr "OPTIONS") with
      | Some (VDict options) => dict_get options (VStr "min_length")
      | _ => None
      end
  | _ => None
  end.

(** An entry as Django wants it: a mapping with a name, and with a mapping
    of options when it is the minimum length validator. *)
Definition well_formed (item : value) : bool :=
  match item with
  | VDict d =>
      match validator_name item with
      | Some name =>
          if endswith name "MinimumLengthValidator" then
            match dict_get d (VStr "OPTIONS") with
            | Some (VDict _) => true
            | _ => false
            end
          else true
      | None => false
      end
  | _ => false
  end.

(** How [configure_password_validators] leaves one entry *)
Definition min_length_set (n : Z) (item item' : value) : Prop :=
  validator_name item' = validator_name item
  /\ (if is_min_length item then min_length_of item' = Some (VInt n) else item' = item).

(** Two entries as Django's default settings have them *)
Definition django_validators : list value :=
  [sdict [("NAME", VStr "django.contrib.auth.password_validation.UserAttributeSimilarityValidator")];
   sdict [("NAME", VStr "django.contrib.auth.password_validation.MinimumLengthValidator");
          ("OPTIONS", sdict [("min_length", VInt 9)])]].

(** Settings that ask for passwords of twelve characters *)
Definition password_settings : Dynaconf :=
  settings_of [("AUTH_PASSWORD_VALIDATORS", VList django_validators);
               ("GALAXY_MINIMUM_PASSWORD_LENGTH", VInt 12)].

(** The root that [configure_api_base_path] builds from a prefix *)
Definition api_root (prefix : string) : string := "/" ++ strip_slash prefix ++ "/pulp/".

(** The settings that [configure_ldap] wants *)
Definition ldap_required : list string :=
  ["AUTH_LDAP_SERVER_URI"; "AUTH_LDAP_BIND_DN"; "AUTH_LDAP_BIND_PASSWORD";
   "AUTH_LDAP_USER_SEARCH_BASE_DN"; "AUTH_LDAP_USER_SEARCH_SCOPE";
   "AUTH_LDAP_USER_SEARCH_FILTER"; "AUTH_LDAP_GROUP_SEARCH_BASE_DN";
   "AUTH_LDAP_GROUP_SEARCH_SCOPE"; "AUTH_LDAP_GROUP_SEARCH_FILTER"].

(** All of them are truthy *)
Definition ldap_enabled (s : Dynaconf) : bool :=
  all (map (fun key => get s key VNone) ldap_required).

(** LDAP settings with a group search of their own and an unknown scope
    name for the groups *)
Definition ldap_settings : Dynaconf :=
  settings_of
    [("AUTH_LDAP_SERVER_URI", VStr "ldap://ldap.example.org");
     ("AUTH_LDAP_BIND_DN", VStr "cn=admin,dc=example,dc=org");
     ("AUTH_LDAP_BIND_PASSWORD", VStr "secret");
     ("AUTH_LDAP_USER_SEARCH_BASE_DN", VStr "ou=people,dc=example,dc=org");
     ("AUTH_LDAP_USER_SEARCH_SCOPE", VStr "ONELEVEL");
     ("AUTH_LDAP_USER_SEARCH_FILTER", VStr "(uid=%(user)s)");
     ("AUTH_LDAP_GROUP_SEARCH_BASE_DN", VStr "ou=groups,dc=example,dc=org");
     ("AUTH_LDAP_GROUP_SEARCH_SCOPE", VStr "subtree");
     ("AUTH_LDAP_GROUP_SEARCH_FILTER", VStr "(objectClass=groupOfNames)");
     ("AUTH_LDAP_GROUP_SEARCH", VObj "django_auth_ldap.config.LDAPSearch" [])].

(** The marker that dynaconf reads as a request to merge *)
Definition MARKER : value := VStr "dynaconf_merge".


(** One character that is not a newline *)
Definition a_char (c : ascii) : Prop := c <> "010"%char.

(** "-dev" or "-stage", any number of times *)
Inductive stages : string -> Prop :=
| stages_none : stages ""
| stages_dev s : stages s -> stages ("-dev" ++ s)
| stages_stage s : stages s -> stages ("-stage" ++ s).

(** What the pattern [galaxy(-dev|-stage)*.ansible.com] matches from its
    first character on, followed by anything *)
Definition community_match (s : string) : Prop :=
  exists mid c1 c2 rest,
    stages mid /\ a_char c1 /\ a_char c2
    /\ s = "galaxy" ++ mid ++ String c1 ("ansible" ++ String c2 ("com" ++ rest)).

(** What follows the stages: [.ansible.com] and anything *)
Definition tail_match (s : string) : Prop :=
  exists c1 c2 rest,
    a_char c1 /\ a_char c2 /\ s = String c1 ("ansible" ++ String c2 ("com" ++ rest)).




Definition SIGNATURE : string := "GALAXY_REQUIRE_SIGNATURE_FOR_APPROVAL".

(** The condition of the signature rule holds: content approval is not
    set, or is set to a value equal to [False]. *)
Definition approval_off (s : Dynaconf) : Prop :=
  match store s !! approval_key with
  | Some v => py_eq v (VBool false) = true
  | None => True
  end.

(** [Hook(function)] for the function bound to [name] *)
Definition hook_of (name : string) : value := VObj "dynaconf.hooking.Hook" [VStr name].

(** The update that registers the hooks of these names *)
Definition registered (names : list string) : dict :=
  {[ "_registered_hooks" :=
       VDict [(VObj "dynaconf.hooking.Action.AFTER_GET" [], VList (map hook_of names))] ]}.

(** The record [configure_dynamic_settings] logs before it registers *)
Definition enabling_notice : event := Log INFO "Enabling Dynamic Settings Feature" [].

(** The value of DYNACONF_AFTER_GET_HOOKS *)
Definition hooks_setting (st : state) : value :=
  get (settings st) "DYNACONF_AFTER_GET_HOOKS" VNone.

(** Settings that enable the two hooks of the module *)
Definition both_hooks : Dynaconf :=
  settings_of
    [("DYNACONF_AFTER_GET_HOOKS",
      VList (strs ["read_settings_from_cache_or_db"; "alter_hostname_settings"]))].

(** The event records an access to the cache or to the table *)
Definition is_read (e : event) : bool :=
  match e with
  | CacheRead | DbRead => true
  | Log _ _ _ => false
  end.

(** The accesses among [events], in their order *)
Definition reads (events : list event) : list event := List.filter is_read events.

(** * Properties *)

(** ** The definitions at work on small inputs *)

Example strip_slash_prefix : strip_slash "/api/galaxy/" = "api/galaxy".
Proof. reflexivity. Qed.

Example upper_key : upper "token_server" = "TOKEN_SERVER".
Proof. reflexivity. Qed.

Example before_dunder_nested : before_dunder "GALAXY_FEATURE_FLAGS__legacy_roles" = "GALAXY_FEATURE_FLAGS".
Proof. reflexivity. Qed.

Example community_origins :
  community_origin "https://galaxy.ansible.com" = true
  /\ community_origin "https://galaxy-dev-stage.ansible.com/api" = true
  /\ community_origin "https://hub.example.org" = false.
Proof. repeat split; reflexivity. Qed.

Example zero_equals_false : py_eq (VInt 0) (VBool false) = true.
Proof. reflexivity. Qed.

Example consolidate_keycloak :
  consolidate true [VStr "rest_framework.authentication.BasicAuthentication";
                    VStr galaxy_session]
  = [VStr galaxy_session;
     VStr "galaxy_ng.app.auth.keycloak.KeycloakBasicAuth";
     VStr "galaxy_ng.app.auth.token.ExpiringTokenAuthentication";
     VStr "rest_framework.authentication.BasicAuthentication"].
Proof. reflexivity. Qed.

Example dedupe_two_markers :
  dedupe_dynaconf_merge
    [VStr "a"; VStr "dynaconf_merge"; VStr "b"; VStr "dynaconf_merge"]
  = [VStr "a"; VStr "b"; VStr "dynaconf_merge"].
Proof. reflexivity. Qed.

Example post_api_root :
  returned "API_ROOT" (post plain_env true true (start (settings_of base_settings)))
  = Some (VStr "/api/galaxy/pulp/").
Proof. vm_compute. reflexivity. Qed.

(** ** Reasoning about computations *)

Lemma bind_ok {A B} (c : M A) (k : A -> M B) st b st' :
  bind c k st = (Ok b, st') ->
  exists a st1, c st = (Ok a, st1) /\ k a st1 = (Ok b, st').
Proof.
  unfold bind. destruct (c st) as [[a|e] st1]; intros H.
  - exists a, st1. split; [reflexivity | exact H].
  - discriminate H.
Qed.



Section Keeps.

Context (key : string).

Lemma keeps_ret {A} (a : A) : keeps key (ret a).
Proof. intros st. reflexivity. Qed.

Lemma keeps_raise {A} (e : exn) : keeps key (@raise A e).
Proof. intros st. reflexivity. Qed.

Lemma keeps_lift {A} (r : result A) : keeps key (lift r).
Proof. intros st. reflexivity. Qed.

Lemma keeps_read {A} (f : state -> result A) : keeps key (fun st => (f st, st)).
Proof. intros st. reflexivity. Qed.

Lemma keeps_sget k d : keeps key (sget k d).
Proof. intros st. reflexivity. Qed.

Lemma keeps_sattr k : keeps key (sattr k).
Proof. intros st. unfold sattr. destruct (store (settings st) !! k); reflexivity. Qed.

Lemma keeps_emit e : keeps key (emit e).
Proof. intros st. reflexivity. Qed.

Lemma keeps_mutated k v : k <> key -> keeps key (mutated k v).
Proof.
  intros Hne st. unfold mutated.
  destruct (store (settings st) !! k); [|reflexivity].
  cbn. apply lookup_insert_ne. exact Hne.
Qed.

Lemma keeps_register v : keeps key (register v).
Proof.
  intros st. unfold register.
  destruct (existsb _ _); reflexivity.
Qed.

Lemma keeps_bind {A B} (c : M A) (k : A -> M B) :
  keeps key c -> (forall a, keeps key (k a)) -> keeps key (bind c k).
Proof.
  intros Hc Hk st. unfold bind.
  specialize (Hc st). destruct (c st) as [[a|e] st1]; cbn in Hc.
  - rewrite (Hk a st1). exact Hc.
  - exact Hc.
Qed.

Lemma keeps_if {A} (b : bool) (c1 c2 : M A) :
  keeps key c1 -> keeps key c2 -> keeps key (if b then c1 else c2).
Proof. destruct b; auto. Qed.

End Keeps.

Ltac keeps_step :=
  lazymatch goal with
  | |- keeps _ (bind _ _) => apply keeps_bind; [|intros ?]
  | |- keeps _ (ret _) => apply keeps_ret
  | |- keeps _ (raise _) => apply keeps_raise
  | |- keeps _ (lift _) => apply keeps_lift
  | |- keeps _ (sget _ _) => apply keeps_sget
  | |- keeps _ (sattr _) => apply keeps_sattr
  | |- keeps _ (emit _) => apply keeps_emit
  | |- keeps _ (register _) => apply keeps_register
  | |- keeps _ (mutated _ _) => apply keeps_mutated; discriminate
  | |- keeps _ (fun st => (_, st)) => apply keeps_read
  | |- keeps _ (if _ then _ else _) => apply keeps_if
  | |- keeps _ (match ?x with _ => _ end) => destruct x
  end.

Ltac keeps_auto := cbv zeta; repeat keeps_step.














Lemma keeps_ok key {A} (c : M A) st a st1 :
  keeps key c -> c st = (Ok a, st1) ->
  store (settings st1) !! key = store (settings st) !! key.
Proof. intros Hk Hc. specialize (Hk st). rewrite Hc in Hk. exact Hk. Qed.

Lemma sget_ok key d st v st1 :
  sget key d st = (Ok v, st1) -> v = get (settings st) key d /\ st1 = st.
Proof. unfold sget. intros H. injection H as <- <-. split; reflexivity. Qed.



(** ** The resource server flag *)



(** ** Lists of class and backend names *)

Lemma py_eq_str_r (x : value) (s : string) : py_eq x (VStr s) = true <-> x = VStr s.
Proof.
  destruct x; cbn; try (split; [discriminate | intros; discriminate]).
  rewrite String.eqb_eq. split; congruence.
Qed.

Lemma py_eq_str_l (s : string) (x : value) : py_eq (VStr s) x = true <-> x = VStr s.
Proof.
  destruct x; cbn; try (split; [discriminate | intros; discriminate]).
  rewrite String.eqb_eq. split; congruence.
Qed.

Lemma py_eq_str_sym (s : string) (x : value) : py_eq (VStr s) x = py_eq x (VStr s).
Proof.
  destruct (py_eq x (VStr s)) eqn:H.
  - apply py_eq_str_l. apply py_eq_str_r. exact H.
  - destruct (py_eq (VStr s) x) eqn:H'; [|reflexivity].
    apply py_eq_str_l in H'. apply py_eq_str_r in H'. congruence.
Qed.

Arguments py_eq : simpl never.

Lemma py_in_str (s : string) (l : list value) : py_in (VStr s) l = true <-> In (VStr s) l.
Proof.
  unfold py_in. rewrite existsb_exists. split.
  - intros (x & Hx & Heq). apply py_eq_str_l in Heq. subst x. exact Hx.
  - intros H. exists (VStr s). split; [exact H | apply py_eq_str_l; reflexivity].
Qed.

Lemma count_cons (x y : value) (l : list value) :
  count x (y :: l) = ((if py_eq y x then 1 else 0) + count x l)%nat.
Proof. unfold count. cbn. destruct (py_eq y x); reflexivity. Qed.

Lemma count_app (x : value) (l1 l2 : list value) :
  count x (l1 ++ l2) = (count x l1 + count x l2)%nat.
Proof. unfold count. rewrite List.filter_app, length_app. reflexivity. Qed.


Lemma count_remove_str (s : string) (l : list value) :
  py_in (VStr s) l = true -> S (count (VStr s) (Py.remove (VStr s) l)) = count (VStr s) l.
Proof.
  induction l as [|y l IH]; [discriminate|].
  intros H. cbn [Py.remove]. rewrite count_cons.
  destruct (py_eq y (VStr s)) eqn:Hy; [reflexivity|].
  rewrite count_cons, Hy. cbn [Nat.add]. apply IH.
  unfold py_in in H. cbn [existsb] in H.
  rewrite py_eq_str_sym, Hy in H. exact H.
Qed.

Lemma others_remove (x : value) (l : list value) : others x (Py.remove x l) = others x l.
Proof.
  induction l as [|y l IH]; [reflexivity|].
  cbn. destruct (py_eq y x) eqn:Hy; cbn; rewrite ?Hy; cbn; [reflexivity|].
  f_equal. exact IH.
Qed.

Lemma remove_app_absent (x : value) (l1 l2 : list value) :
  count x l1 = 0%nat -> Py.remove x (l1 ++ l2) = (l1 ++ Py.remove x l2)%list.
Proof.
  induction l1 as [|y l1 IH]; [reflexivity|].
  rewrite count_cons. cbn. destruct (py_eq y x); [discriminate|].
  cbn. intros H. f_equal. apply IH. exact H.
Qed.

Lemma add_keycloak_classes_app (classes : list value) :
  exists added,
    add_keycloak_classes classes = (added ++ classes)%list
    /\ Forall keycloak_class added.
Proof.
  unfold add_keycloak_classes, insert0. cbn [fold_left].
  destruct (not_in _ classes); destruct (not_in _ _).
  - exists [VStr "galaxy_ng.app.auth.keycloak.KeycloakBasicAuth";
            VStr "galaxy_ng.app.auth.token.ExpiringTokenAuthentication"].
    split; [reflexivity|].
    apply List.Forall_cons; [right; reflexivity|].
    apply List.Forall_cons; [left; reflexivity|]. apply List.Forall_nil.
  - exists [VStr "galaxy_ng.app.auth.token.ExpiringTokenAuthentication"].
    split; [reflexivity|]. apply List.Forall_cons; [left; reflexivity | apply List.Forall_nil].
  - exists [VStr "galaxy_ng.app.auth.keycloak.KeycloakBasicAuth"].
    split; [reflexivity|]. apply List.Forall_cons; [right; reflexivity | apply List.Forall_nil].
  - exists []. split; [reflexivity|]. constructor.
Qed.

Lemma keycloak_class_count (added : list value) :
  Forall keycloak_class added -> count (VStr galaxy_session) added = 0%nat.
Proof.
  induction 1 as [|x l Hx _ IH]; [reflexivity|].
  rewrite count_cons, IH. destruct Hx as [-> | ->]; reflexivity.
Qed.

(** What [consolidate] does to a list that holds the session class, but
    not in front: the session class, then the keycloak classes that were
    added, then the list without its first session class. *)
Lemma consolidate_moves keycloak_enabled first rest :
  first <> VStr galaxy_session ->
  In (VStr galaxy_session) rest ->
  exists added,
    consolidate keycloak_enabled (first :: rest)
    = (VStr galaxy_session :: added ++ Py.remove (VStr galaxy_session) (first :: rest))%list
    /\ Forall keycloak_class added
    /\ (keycloak_enabled = false -> added = []).
Proof.
  intros Hfirst Hin.
  assert (Hadd : exists added,
             (if keycloak_enabled then add_keycloak_classes (first :: rest) else first :: rest)
             = (added ++ first :: rest)%list
             /\ Forall keycloak_class added /\ (keycloak_enabled = false -> added = [])).
  { destruct keycloak_enabled.
    - destruct (add_keycloak_classes_app (first :: rest)) as (added & E1 & E2).
      exists added. repeat split; auto. discriminate.
    - exists []. repeat split; auto. }
  destruct Hadd as (added & Eadd & Hadded & Hoff).
  exists added. repeat split; auto.
  unfold consolidate. rewrite Eadd.
  assert (Hhead : forall x l, (added ++ first :: rest)%list = x :: l ->
                              py_eq x (VStr galaxy_session) = false).
  { intros x l E0. destruct added as [|a added'].
    - injection E0 as <- _. destruct (py_eq first _) eqn:Hp; [|reflexivity].
      apply py_eq_str_r in Hp. contradiction.
    - injection E0 as <- _. apply Forall_inv in Hadded.
      destruct Hadded as [-> | ->]; reflexivity. }
  unfold session_first.
  destruct (added ++ first :: rest)%list as [|x l] eqn:E0.
  { destruct added; discriminate E0. }
  rewrite (Hhead x l eq_refl). cbn [negb].
  assert (Hin' : py_in (VStr galaxy_session) (x :: l) = true).
  { rewrite <- E0. apply py_in_str. apply in_or_app. right. right. exact Hin. }
  rewrite Hin'. unfold insert0. f_equal. rewrite <- E0.
  apply remove_app_absent. apply keycloak_class_count. exact Hadded.
Qed.
Lemma others_keycloak (added : list value) :
  Forall keycloak_class added -> others (VStr galaxy_session) added = added.
Proof.
  induction 1 as [|x l Hx _ IH]; [reflexivity|].
  unfold others in *. cbn [List.filter]. rewrite IH.
  destruct Hx as [-> | ->]; reflexivity.
Qed.

(** ** The session class comes first *)

(** C2, as amended.  Given a class list that holds the session class, but
    not at position 0, [configure_authentication_classes] returns, under
    each of its three keys, the session class at position 0, then the
    keycloak classes it had to add (none when keycloak is off), then the
    given list without its first session class.  So the other classes keep
    their relative order, and the session class occurs as often as it did:
    once when the given list held it once. *)
Theorem configure_authentication_classes_session_first data st first rest :
  default (get (settings st) GAC VNone) (data !! GAC) = VList (first :: rest) ->
  first <> VStr galaxy_session ->
  In (VStr galaxy_session) rest ->
  exists data' st' added,
    configure_authentication_classes data st = (Ok data', st')
    /\ let classes := first :: rest in
       let r := (VStr galaxy_session :: added
                   ++ Py.remove (VStr galaxy_session) classes)%list in
       data' !! GAC = Some (VList r)
       /\ data' !! "ANSIBLE_AUTHENTICATION_CLASSES" = Some (VList r)
       /\ data' !! "REST_FRAMEWORK__DEFAULT_AUTHENTICATION_CLASSES" = Some (VList r)
       /\ Forall keycloak_class added
       /\ (is_True (dget data "GALAXY_AUTH_KEYCLOAK_ENABLED") = false -> added = [])
       /\ count (VStr galaxy_session) r = count (VStr galaxy_session) classes
       /\ others (VStr galaxy_session) r
          = (added ++ others (VStr galaxy_session) classes)%list.
Proof.
  intros Hsrc Hfirst Hin.
  destruct (consolidate_moves (is_True (dget data "GALAXY_AUTH_KEYCLOAK_ENABLED"))
              first rest Hfirst Hin) as (added & Hcons & Hadded & Hoff).
  assert (Hrun : exists data' st',
             configure_authentication_classes data st = (Ok data', st')
             /\ data' = set_authentication_classes
                          (consolidate (is_True (dget data "GALAXY_AUTH_KEYCLOAK_ENABLED"))
                             (first :: rest))
                          (match data !! GAC with
                           | Some _ => <[GAC := VList (consolidate (is_True (dget data "GALAXY_AUTH_KEYCLOAK_ENABLED")) (first :: rest))]> data
                           | None => data end)).
  { unfold configure_authentication_classes. fold GAC.
    unfold bind at 1. unfold sget at 1. rewrite Hsrc. cbn [is_none].
    rewrite Hcons. cbn [length Nat.ltb Nat.leb].
    destruct (data !! GAC) as [v|] eqn:Hd.
    - cbn in Hsrc. subst v. cbn [is_none]. unfold bind, ret. eauto.
    - cbn in Hsrc. rewrite Hsrc. cbn [is_none]. unfold bind, mutated, ret.
      destruct (store (settings st) !! GAC); eauto. }
  destruct Hrun as (data' & st' & Hrun & ->).
  eexists _, st', added. split; [exact Hrun|]. cbv zeta. rewrite Hcons.
  assert (Hself : py_eq (VStr galaxy_session) (VStr galaxy_session) = true)
    by (apply py_eq_str_r; reflexivity).
  unfold set_authentication_classes, GAC.
  repeat split.
  - rewrite lookup_insert_ne by discriminate. apply lookup_insert_eq.
  - rewrite !lookup_insert_ne by discriminate. apply lookup_insert_eq.
  - apply lookup_insert_eq.
  - exact Hadded.
  - exact Hoff.
  - rewrite count_cons, Hself, count_app, (keycloak_class_count _ Hadded).
    apply count_remove_str. apply py_in_str. right. exact Hin.
  - unfold others. cbn [List.filter]. rewrite Hself. cbn [negb].
    rewrite List.filter_app. fold (others (VStr galaxy_session) added).
    rewrite (others_keycloak _ Hadded). f_equal.
    apply (others_remove (VStr galaxy_session) (first :: rest)).
Qed.

Lemma configure_authentication_classes_session_first_witness :
  exists data' st' added,
    configure_authentication_classes misplaced_session (start (settings_of []))
    = (Ok data', st')
    /\ let classes := [VStr "rest_framework.authentication.TokenAuthentication";
                       VStr galaxy_session;
                       VStr "rest_framework.authentication.BasicAuthentication"] in
       let r := (VStr galaxy_session :: added
                   ++ Py.remove (VStr galaxy_session) classes)%list in
       data' !! GAC = Some (VList r)
       /\ data' !! "ANSIBLE_AUTHENTICATION_CLASSES" = Some (VList r)
       /\ data' !! "REST_FRAMEWORK__DEFAULT_AUTHENTICATION_CLASSES" = Some (VList r)
       /\ Forall keycloak_class added
       /\ (is_True (dget misplaced_session "GALAXY_AUTH_KEYCLOAK_ENABLED") = false
           -> added = [])
       /\ count (VStr galaxy_session) r = count (VStr galaxy_session) classes
       /\ others (VStr galaxy_session) r
          = (added ++ others (VStr galaxy_session) classes)%list.
Proof.
  apply (configure_authentication_classes_session_first misplaced_session
           (start (settings_of []))).
  - reflexivity.
  - discriminate.
  - simpl. auto.
Defined.

(** C2, as stated, fails: the class list [Token; Session; Session] holds
    the session class at positions other than 0, and what comes back
    holds it twice. *)
Lemma configure_authentication_classes_duplicate :
  let classes := [VStr "rest_framework.authentication.TokenAuthentication";
                  VStr galaxy_session; VStr galaxy_session] in
  let r := [VStr galaxy_session;
            VStr "rest_framework.authentication.TokenAuthentication";
            VStr galaxy_session] in
  returned GAC
    (configure_authentication_classes {[ GAC := VList classes ]} (start (settings_of [])))
  = Some (VList r)
  /\ count (VStr galaxy_session) r = 2%nat.
Proof. split; vm_compute; reflexivity. Qed.

(** ** Merging the authentication backends *)

Lemma get_set_store_ne s k v k' d : k <> k' -> get (set_store s k v) k' d = get s k' d.
Proof. intros Hne. unfold get, set_store. cbn. rewrite lookup_insert_ne by exact Hne. reflexivity. Qed.






(** ** Validation *)

Lemma validator_validate_store s s' v :
  store s = store s' -> validator_validate s v = validator_validate s' v.
Proof.
  intros Hs. revert v. fix IH 1. intros [name me ops [w|]]; cbn.
  - rewrite (IH w). unfold validate_items. rewrite Hs. reflexivity.
  - unfold validate_items. rewrite Hs. reflexivity.
Qed.

Lemma validate_two s (presets : list (value * value)) :
  get s "AUTHENTICATION_BACKEND_PRESETS_DATA" (VDict []) = VDict presets ->
  validators s = [] ->
  fst (validate (start s))
  = match validator_validate s signature_rule with
    | Ok _ => validator_validate s (preset_rule (map fst presets))
    | Raise e => Raise e
    end.
Proof.
  intros Hp Hv. unfold validate, bind, register, sget, start, get in *.
  cbn [settings trace]. rewrite Hv. cbn [existsb app store validators settings].
  rewrite Hp. cbn [settings validators store existsb].
  assert (Hne : validator_eqb (preset_rule (map fst presets)) signature_rule = false)
    by reflexivity.
  rewrite Hne. cbn [orb app settings validators fst validate_all].
  erewrite (validator_validate_store _ s signature_rule) by reflexivity.
  destruct (validator_validate s signature_rule); [|reflexivity].
  erewrite (validator_validate_store _ s) by reflexivity.
  destruct (validator_validate s _) as [[]|]; reflexivity.
Qed.

(** C6.  When the settings hold a value under
    GALAXY_REQUIRE_CONTENT_APPROVAL that is not equal to [False], the
    condition of the signature rule is false and the rule does not raise,
    whatever the settings hold under GALAXY_REQUIRE_SIGNATURE_FOR_APPROVAL.
    The rule is skipped, not passed: with that condition a validator does
    not raise whatever its name, its operations and its [must_exist], and
    the outcome of [validate] is that of the preset rule alone. *)
Theorem conditional_rule_skipped s v :
  store s !! "GALAXY_REQUIRE_CONTENT_APPROVAL" = Some v ->
  py_eq v (VBool false) = false ->
  validator_validate s signature_rule = Ok tt
  /\ (forall name must_exist ops,
        validator_validate s (MkValidator name must_exist ops (Some content_approval_off))
        = Ok tt)
  /\ (forall presets,
        get s "AUTHENTICATION_BACKEND_PRESETS_DATA" (VDict []) = VDict presets ->
        validators s = [] ->
        fst (validate (start s)) = validator_validate s (preset_rule (map fst presets))).
Proof.
  intros Hv Hne.
  assert (Hskip : forall name must_exist ops,
             validator_validate s (MkValidator name must_exist ops (Some content_approval_off))
             = Ok tt).
  { intros name me ops. cbn. unfold validate_items. rewrite Hv. cbn. rewrite Hne. reflexivity. }
  split; [apply Hskip|]. split; [exact Hskip|].
  intros presets Hp Hvs. rewrite (validate_two s presets Hp Hvs).
  unfold signature_rule. rewrite Hskip. reflexivity.
Qed.

Lemma conditional_rule_skipped_witness :
  validator_validate approval_required signature_rule = Ok tt
  /\ (forall name must_exist ops,
        validator_validate approval_required
          (MkValidator name must_exist ops (Some content_approval_off))
        = Ok tt)
  /\ (forall presets,
        get approval_required "AUTHENTICATION_BACKEND_PRESETS_DATA" (VDict []) = VDict presets ->
        validators approval_required = [] ->
        fst (validate (start approval_required))
        = validator_validate approval_required (preset_rule (map fst presets))).
Proof.
  apply (conditional_rule_skipped approval_required (VBool true)); reflexivity.
Defined.

(** C7, as amended.  The membership rule that [validate] registers raises
    a [ValidationError] exactly when the settings hold, under
    AUTHENTICATION_BACKEND_PRESET, a value that is neither "local" nor
    "custom" nor a key of AUTHENTICATION_BACKEND_PRESETS_DATA; a value
    equal to one of those keys passes.  [validate] itself raises when the
    signature rule does, and otherwise exactly when the membership rule
    does. *)
Theorem preset_rule_membership s (presets : list (value * value)) :
  get s "AUTHENTICATION_BACKEND_PRESETS_DATA" (VDict []) = VDict presets ->
  validators s = [] ->
  let allowed := ([VStr "local"; VStr "custom"] ++ map fst presets)%list in
  let rule := preset_rule (map fst presets) in
  (forall e,
      validator_validate s rule = Raise e <->
      e = ValidationError PRESET "is_in"
      /\ exists v, store s !! PRESET = Some v /\ py_in v allowed = false)
  /\ (forall name,
        In (VStr name) (map fst presets) ->
        store s !! PRESET = Some (VStr name) ->
        validator_validate s rule = Ok tt)
  /\ fst (validate (start s))
     = match validator_validate s signature_rule with
       | Ok _ => validator_validate s rule
       | Raise e => Raise e
       end.
Proof.
  intros Hp Hvs allowed rule.
  assert (Hrule : validator_validate s rule
                  = match store s !! PRESET with
                    | Some v => if py_in v allowed
                                then Ok tt
                                else Raise (ValidationError PRESET "is_in")
                    | None => Ok tt
                    end).
  { subst rule. unfold preset_rule. cbn. unfold validate_items. fold PRESET.
    destruct (store s !! PRESET) as [v|]; [|reflexivity].
    cbn. fold allowed. destruct (py_in v allowed); reflexivity. }
  split; [|split].
  - intros e. rewrite Hrule. destruct (store s !! PRESET) as [v|].
    + destruct (py_in v allowed) eqn:Hin.
      * split; [discriminate|]. intros (_ & w & Hw & Hf). congruence.
      * split.
        -- intros H. injection H as <-. eauto.
        -- intros (-> & _). reflexivity.
    + split; [discriminate|]. intros (_ & w & Hw & _). discriminate Hw.
  - intros name Hin Hv. rewrite Hrule, Hv.
    assert (H : py_in (VStr name) allowed = true).
    { apply py_in_str. subst allowed. right. right. exact Hin. }
    rewrite H. reflexivity.
  - apply validate_two; assumption.
Qed.

Lemma preset_rule_membership_witness :
  let presets :=
    [(VStr "ldap", VList [VStr "galaxy_ng.app.auth.ldap.PrefixedLDAPBackend"]);
     (VStr "keycloak", VList [VStr "social_core.backends.keycloak.KeycloakOAuth2"])] in
  let allowed := ([VStr "local"; VStr "custom"] ++ map fst presets)%list in
  let rule := preset_rule (map fst presets) in
  (forall e,
      validator_validate ldap_preset rule = Raise e <->
      e = ValidationError PRESET "is_in"
      /\ exists v, store ldap_preset !! PRESET = Some v /\ py_in v allowed = false)
  /\ (forall name,
        In (VStr name) (map fst presets) ->
        store ldap_preset !! PRESET = Some (VStr name) ->
        validator_validate ldap_preset rule = Ok tt)
  /\ fst (validate (start ldap_preset))
     = match validator_validate ldap_preset signature_rule with
       | Ok _ => validator_validate ldap_preset rule
       | Raise e => Raise e
       end.
Proof.
  apply (preset_rule_membership ldap_preset); reflexivity.
Defined.

(** C7, as stated, fails: with the preset "local", which is allowed,
    [validate] still raises a [ValidationError], that of the signature
    rule. *)
Lemma validate_raises_with_allowed_preset :
  let s := settings_of
             [("GALAXY_REQUIRE_SIGNATURE_FOR_APPROVAL", VBool true);
              ("GALAXY_REQUIRE_CONTENT_APPROVAL", VBool false);
              ("AUTHENTICATION_BACKEND_PRESET", VStr "local");
              ("AUTHENTICATION_BACKEND_PRESETS_DATA", VDict [])] in
  fst (validate (start s))
  = Raise (ValidationError "GALAXY_REQUIRE_SIGNATURE_FOR_APPROVAL" "eq")
  /\ py_in (get s PRESET VNone) [VStr "local"; VStr "custom"] = true.
Proof. split; vm_compute; reflexivity. Qed.
(** ** The dynamic settings *)

Lemma configure_dynamic_settings_disabled E st :
  truthy (get (settings st) "DYNACONF_AFTER_GET_HOOKS" VNone) = false ->
  configure_dynamic_settings E st = (Ok ∅, st).
Proof.
  intros H. unfold configure_dynamic_settings, bind, sget. rewrite H. reflexivity.
Qed.

(** C8.  When the imports of dynaconf's method hooking fail,
    [configure_dynamic_settings] returns the empty update, so no hook is
    registered, and leaves one record, the degradation notice, with the
    logger: it returns, it does not raise. *)
Theorem configure_dynamic_settings_degrades E st exc :
  imports_fail E st exc ->
  configure_dynamic_settings E st = (Ok ∅, logged st [degradation_notice exc]).
Proof.
  intros [Henabled Himp]. unfold configure_dynamic_settings, bind, sget.
  rewrite Henabled, Himp. reflexivity.
Qed.

Lemma configure_dynamic_settings_degrades_witness :
  let E := running true None (Ok VNone) (Ok VNone)
             (Some "cannot import name 'Action' from 'dynaconf.hooking'") in
  let st := start (settings_of
                     [("DYNACONF_AFTER_GET_HOOKS",
                       VList [VStr "read_settings_from_cache_or_db";
                              VStr "alter_hostname_settings"])]) in
  imports_fail E st "cannot import name 'Action' from 'dynaconf.hooking'"
  /\ configure_dynamic_settings E st
     = (Ok ∅, logged st [degradation_notice
                           "cannot import name 'Action' from 'dynaconf.hooking'"]).
Proof.
  assert (H : imports_fail
                (running true None (Ok VNone) (Ok VNone)
                   (Some "cannot import name 'Action' from 'dynaconf.hooking'"))
                (start (settings_of
                     [("DYNACONF_AFTER_GET_HOOKS",
                       VList [VStr "read_settings_from_cache_or_db";
                              VStr "alter_hostname_settings"])]))
                "cannot import name 'Action' from 'dynaconf.hooking'")
    by (split; reflexivity).
  split; [exact H|].
  exact (configure_dynamic_settings_degrades _ _ _ H).
Defined.




(** *** Reads through the cache and the table *)








(** The cached value False replaces the static True on a cache hit. *)
Example read_cache_hit :
  fst (read_settings_from_cache_or_db
         (running true None (Ok (sdict [(approval_key, VBool false)])) (Ok VNone) None)
         (VBool true) approval_key (start (settings_of [(approval_key, VBool true)])))
  = Ok (VBool false).
Proof. vm_compute. reflexivity. Qed.



(** ** What the hooks read *)






(** * Further properties of the hooks *)

(** ** What the post hook leaves of the settings *)

Lemma in_place_refl keys m : in_place keys m m.
Proof. split; intros; reflexivity. Qed.

Lemma in_place_trans keys m1 m2 m3 :
  in_place keys m1 m2 -> in_place keys m2 m3 -> in_place keys m1 m3.
Proof.
  intros [Hd1 Hv1] [Hd2 Hv2]. split.
  - intros key. rewrite Hd2. apply Hd1.
  - intros key Hkey. rewrite Hv2 by exact Hkey. apply Hv1. exact Hkey.
Qed.

Section ChangesOnly.

Context (keys : list string).

Lemma changes_only_ret {A} (a : A) : changes_only keys (ret a).
Proof. intros st. apply in_place_refl. Qed.

Lemma changes_only_raise {A} (e : exn) : changes_only keys (@raise A e).
Proof. intros st. apply in_place_refl. Qed.

Lemma changes_only_lift {A} (r : result A) : changes_only keys (lift r).
Proof. intros st. apply in_place_refl. Qed.

Lemma changes_only_read {A} (f : state -> result A) : changes_only keys (fun st => (f st, st)).
Proof. intros st. apply in_place_refl. Qed.

Lemma changes_only_sget k d : changes_only keys (sget k d).
Proof. intros st. apply in_place_refl. Qed.

Lemma changes_only_sattr k : changes_only keys (sattr k).
Proof. intros st. unfold sattr. destruct (store (settings st) !! k); apply in_place_refl. Qed.

Lemma changes_only_emit e : changes_only keys (emit e).
Proof. intros st. apply in_place_refl. Qed.

Lemma changes_only_register v : changes_only keys (register v).
Proof. intros st. unfold register. destruct (existsb _ _); apply in_place_refl. Qed.

Lemma changes_only_mutated k v : k ∈ keys -> changes_only keys (mutated k v).
Proof.
  intros Hin st. unfold mutated.
  destruct (store (settings st) !! k) as [old|] eqn:Hk; [|apply in_place_refl].
  cbn. split.
  - intros key. destruct (decide (k = key)) as [<-|Hne].
    + rewrite lookup_insert_eq, Hk. split; eauto.
    + rewrite lookup_insert_ne by exact Hne. reflexivity.
  - intros key Hkey. apply lookup_insert_ne. intros <-. exact (Hkey Hin).
Qed.

Lemma changes_only_bind {A B} (c : M A) (k : A -> M B) :
  changes_only keys c -> (forall a, changes_only keys (k a)) -> changes_only keys (bind c k).
Proof.
  intros Hc Hk st. unfold bind.
  specialize (Hc st). destruct (c st) as [[a|e] st1]; cbn [snd] in Hc.
  - eapply in_place_trans; [exact Hc | apply Hk].
  - exact Hc.
Qed.

Lemma changes_only_if {A} (b : bool) (c1 c2 : M A) :
  changes_only keys c1 -> changes_only keys c2 -> changes_only keys (if b then c1 else c2).
Proof. destruct b; auto. Qed.

End ChangesOnly.

Ltac in_keys := repeat (apply elem_of_cons; first [left; reflexivity | right]).

Ltac changes_step :=
  lazymatch goal with
  | |- changes_only _ (bind _ _) => apply changes_only_bind; [|intros ?]
  | |- changes_only _ (ret _) => apply changes_only_ret
  | |- changes_only _ (raise _) => apply changes_only_raise
  | |- changes_only _ (lift _) => apply changes_only_lift
  | |- changes_only _ (sget _ _) => apply changes_only_sget
  | |- changes_only _ (sattr _) => apply changes_only_sattr
  | |- changes_only _ (emit _) => apply changes_only_emit
  | |- changes_only _ (register _) => apply changes_only_register
  | |- changes_only _ (mutated _ _) => apply changes_only_mutated; in_keys
  | |- changes_only _ (fun st => (_, st)) => apply changes_only_read
  | |- changes_only _ (if _ then _ else _) => apply changes_only_if
  | |- changes_only _ (match ?x with _ => _ end) => destruct x
  end.

Ltac changes_hook :=
  lazymatch goal with
  | |- changes_only _ (configure_ldap _) => unfold configure_ldap
  | |- changes_only _ (configure_logging _) => unfold configure_logging
  | |- changes_only _ (configure_keycloak _) => unfold configure_keycloak
  | |- changes_only _ configure_socialauth => unfold configure_socialauth
  | |- changes_only _ (configure_cors _) => unfold configure_cors
  | |- changes_only _ configure_pulp_ansible => unfold configure_pulp_ansible
  | |- changes_only _ configure_renderers => unfold configure_renderers
  | |- changes_only _ (configure_password_validators _) => unfold configure_password_validators
  | |- changes_only _ configure_api_base_path => unfold configure_api_base_path
  | |- changes_only _ configure_legacy_roles => unfold configure_legacy_roles
  | |- changes_only _ (configure_dab_required_settings _ _) =>
      unfold configure_dab_required_settings
  | |- changes_only _ (configure_authentication_backends _) =>
      unfold configure_authentication_backends
  | |- changes_only _ (configure_authentication_classes _) =>
      unfold configure_authentication_classes
  | |- changes_only _ (configure_dynamic_settings _) => unfold configure_dynamic_settings
  | |- changes_only _ validate => unfold validate
  | |- changes_only _ (configure_dynaconf_cli _) => unfold configure_dynaconf_cli
  | _ => changes_step
  end.



Lemma changes_only_ok keys {A} (c : M A) st a st1 key :
  changes_only keys c -> c st = (Ok a, st1) -> key ∉ keys ->
  store (settings st1) !! key = store (settings st) !! key.
Proof. intros Hc Hrun Hkey. specialize (Hc st). rewrite Hrun in Hc. apply Hc. exact Hkey. Qed.

Lemma not_changed_in_place (key : string) :
  bool_decide (key ∈ changed_in_place) = false -> key ∉ changed_in_place.
Proof. intros H Hin. apply bool_decide_eq_false_1 in H. exact (H Hin). Qed.

Ltac hook_step H d s Hs key :=
  apply bind_ok in H as (d & s & Hs & H);
  apply (changes_only_ok changed_in_place _ _ _ _ key) in Hs;
  [ | unfold changed_in_place; repeat changes_hook
    | apply not_changed_in_place; vm_compute; reflexivity ].

Lemma configure_api_base_path_needs st d st1 :
  configure_api_base_path st = (Ok d, st1) ->
  exists prefix, store (settings st) !! "GALAXY_API_PATH_PREFIX" = Some (VStr prefix).
Proof.
  unfold configure_api_base_path. intros H.
  apply bind_ok in H as (root & s & Hroot & H).
  apply sget_ok in Hroot as [-> ->]. unfold get in H.
  destruct (store (settings st) !! "GALAXY_API_PATH_PREFIX") as [[]|];
    try discriminate H. eauto.
Qed.

Lemma configure_authentication_backends_needs data st d st1 :
  configure_authentication_backends data st = (Ok d, st1) ->
  exists presets,
    store (settings st) !! "AUTHENTICATION_BACKEND_PRESETS_DATA" = Some (VDict presets).
Proof.
  unfold configure_authentication_backends. intros H.
  apply bind_ok in H as (b0 & sa & Hb0 & H). apply sget_ok in Hb0 as [_ ->].
  apply bind_ok in H as (b1 & sb & Hb1 & H).
  apply (keeps_ok "AUTHENTICATION_BACKEND_PRESETS_DATA") in Hb1; [|keeps_auto].
  apply bind_ok in H as (pn & sc & Hpn & H). apply sget_ok in Hpn as [_ ->].
  apply bind_ok in H as (presets & sd & Hp & H).
  unfold sattr in Hp. rewrite Hb1 in Hp.
  destruct (store (settings st) !! "AUTHENTICATION_BACKEND_PRESETS_DATA") as [v|];
    [|discriminate Hp].
  injection Hp as -> _.
  apply bind_ok in H as (pl & se & Hpl & _).
  destruct presets; try discriminate Hpl. eauto.
Qed.

Lemma configure_dynaconf_cli_ok data st d st1 :
  configure_dynaconf_cli data st = (Ok d, st1) ->
  (exists dab, d !! "DAB_DYNACONF" = Some dab /\ is_dynaconf dab = true)
  /\ d !! "CLI_DYNACONF" = Some (dynaconf_object "CLI_DYNACONF").
Proof.
  unfold configure_dynaconf_cli. intros H.
  destruct (data !! "DAB_DYNACONF") as [dab|] eqn:Hdab; [|discriminate H].
  destruct (is_dynaconf dab) eqn:Hd; [|discriminate H].
  injection H as <- _. split.
  - exists dab. split; [|exact Hd]. rewrite lookup_insert_ne by discriminate. exact Hdab.
  - apply lookup_insert_eq.
Qed.

(** X2.  [post] returns only on settings that hold a string under
    GALAXY_API_PATH_PREFIX, a mapping under
    AUTHENTICATION_BACKEND_PRESETS_DATA and a value under
    AUTH_PASSWORD_VALIDATORS; the update it returns then holds the handle
    of the secondary instance under DAB_DYNACONF and that of the command
    line instance under CLI_DYNACONF. *)
Theorem post_needs_settings E run_dynamic run_validate st data st' :
  post E run_dynamic run_validate st = (Ok data, st') ->
  (exists prefix, store (settings st) !! "GALAXY_API_PATH_PREFIX" = Some (VStr prefix))
  /\ (exists presets,
         store (settings st) !! "AUTHENTICATION_BACKEND_PRESETS_DATA" = Some (VDict presets))
  /\ is_Some (store (settings st) !! "AUTH_PASSWORD_VALIDATORS")
  /\ (exists dab, data !! "DAB_DYNACONF" = Some dab /\ is_dynaconf dab = true)
  /\ data !! "CLI_DYNACONF" = Some (dynaconf_object "CLI_DYNACONF").
Proof.
  intros H. unfold post in H.
  split; [|split; [|split]].
  - set (key := "GALAXY_API_PATH_PREFIX").
    hook_step H d1 s1 H1 key. hook_step H d2 s2 H2 key. hook_step H d3 s3 H3 key.
    hook_step H d4 s4 H4 key. hook_step H d5 s5 H5 key. hook_step H d6 s6 H6 key.
    hook_step H d7 s7 H7 key. hook_step H d8 s8 H8 key.
    apply bind_ok in H as (d9 & s9 & H9 & _).
    apply configure_api_base_path_needs in H9 as (prefix & Hp).
    exists prefix. fold key in Hp. congruence.
  - set (key := "AUTHENTICATION_BACKEND_PRESETS_DATA").
    hook_step H d1 s1 H1 key. hook_step H d2 s2 H2 key. hook_step H d3 s3 H3 key.
    hook_step H d4 s4 H4 key. hook_step H d5 s5 H5 key. hook_step H d6 s6 H6 key.
    hook_step H d7 s7 H7 key. hook_step H d8 s8 H8 key. hook_step H d9 s9 H9 key.
    hook_step H d10 s10 H10 key. hook_step H d11 s11 H11 key.
    apply bind_ok in H as (d12 & s12 & H12 & H). injection H12 as _ <-.
    apply bind_ok in H as (d13 & s13 & H13 & _).
    apply configure_authentication_backends_needs in H13 as (presets & Hp).
    exists presets. fold key in Hp. congruence.
  - set (key := "AUTH_PASSWORD_VALIDATORS").
    apply bind_ok in H as (d1 & s1 & H1 & H).
    apply (keeps_ok key) in H1; [|unfold configure_ldap; keeps_auto].
    apply bind_ok in H as (d2 & s2 & H2 & H).
    apply (keeps_ok key) in H2; [|unfold configure_logging; keeps_auto].
    apply bind_ok in H as (d3 & s3 & H3 & H).
    apply (keeps_ok key) in H3; [|unfold configure_keycloak; keeps_auto].
    apply bind_ok in H as (d4 & s4 & H4 & H).
    apply (keeps_ok key) in H4; [|unfold configure_socialauth; keeps_auto].
    apply bind_ok in H as (d5 & s5 & H5 & H).
    apply (keeps_ok key) in H5; [|unfold configure_cors; keeps_auto].
    apply bind_ok in H as (d6 & s6 & H6 & H).
    apply (keeps_ok key) in H6; [|unfold configure_pulp_ansible; keeps_auto].
    apply bind_ok in H as (d7 & s7 & H7 & H).
    apply (keeps_ok key) in H7; [|unfold configure_renderers; keeps_auto].
    apply bind_ok in H as (d8 & s8 & H8 & _).
    unfold configure_password_validators in H8.
    apply bind_ok in H8 as (n & s & Hn & H8). apply sget_ok in Hn as [_ ->].
    apply bind_ok in H8 as (v & s & Hv & _).
    unfold sattr in Hv. fold key in Hv.
    assert (Hk : store (settings s7) !! key = store (settings st) !! key) by congruence.
    rewrite Hk in Hv. destruct (store (settings st) !! key); [eauto|discriminate Hv].
  - do 17 (apply bind_ok in H as (? & ? & _ & H)).
    apply bind_ok in H as (d & s & Hcli & H). injection H as <- _.
    exact (configure_dynaconf_cli_ok _ _ _ _ Hcli).
Qed.

Lemma post_needs_settings_witness :
  exists data st',
    post plain_env true true (start resource_settings) = (Ok data, st')
    /\ is_Some (store resource_settings !! "AUTH_PASSWORD_VALIDATORS")
    /\ data !! "CLI_DYNACONF" = Some (dynaconf_object "CLI_DYNACONF").
Proof.
  destruct (post plain_env true true (start resource_settings)) as [r st'] eqn:Hp.
  destruct r as [data|e].
  - exists data, st'. split; [reflexivity|].
    destruct (post_needs_settings _ _ _ _ _ _ Hp) as (_ & _ & Hv & _ & Hcli).
    split; [exact Hv | exact Hcli].
  - exfalso.
    assert (Hok : is_ok (fst (post plain_env true true (start resource_settings))) = true)
      by (vm_compute; reflexivity).
    rewrite Hp in Hok. discriminate Hok.
Defined.

(** ** Keycloak *)

Lemma lookup_set_store_ne s k v k' :
  k <> k' -> store (set_store s k v) !! k' = store s !! k'.
Proof. intros Hne. unfold set_store. cbn. apply lookup_insert_ne. exact Hne. Qed.

Lemma prefix_app (p s : string) : String.prefix p (p ++ s) = true.
Proof.
  induction p as [|c p IH]; [destruct s; reflexivity|].
  change (String c p ++ s) with (String c (p ++ s)).
  cbn [String.prefix]. destruct (ascii_dec c c); [exact IH | contradiction].
Qed.

Ltac lookup_inserted :=
  repeat (rewrite lookup_insert_ne by discriminate); apply lookup_insert_eq.

Lemma configure_keycloak_run E st base_dir templates :
  keycloak_required (settings st) = true ->
  store (settings st) !! "BASE_DIR" = Some base_dir ->
  path_join E base_dir "templates" = Ok templates ->
  exists d,
    configure_keycloak E st = (Ok d, st)
    /\ d !! "GALAXY_AUTH_KEYCLOAK_ENABLED" = Some (VBool true)
    /\ d !! "KEYCLOAK_GROUP_TOKEN_CLAIM"
       = Some (get (settings st) "KEYCLOAK_GROUP_TOKEN_CLAIM" (VStr "group"))
    /\ d !! "KEYCLOAK_ROLE_TOKEN_CLAIM"
       = Some (get (settings st) "KEYCLOAK_GROUP_TOKEN_CLAIM" (VStr "client_roles"))
    /\ d !! "KEYCLOAK_URL"
       = Some (VStr (keycloak_base E (settings st) (get (settings st) "KEYCLOAK_HOST" VNone)))
    /\ d !! "SOCIAL_AUTH_KEYCLOAK_ACCESS_TOKEN_URL"
       = Some (VStr (keycloak_base E (settings st) (get (settings st) "KEYCLOAK_HOST" VNone)
                     ++ realm_path E (settings st) "token/"))
    /\ d !! "SOCIAL_AUTH_KEYCLOAK_AUTHORIZATION_URL"
       = Some (VStr (keycloak_base E (settings st)
                       (if truthy (get (settings st) "KEYCLOAK_HOST_LOOPBACK" VNone)
                        then get (settings st) "KEYCLOAK_HOST_LOOPBACK" VNone
                        else get (settings st) "KEYCLOAK_HOST" VNone)
                     ++ realm_path E (settings st) "auth/"))
    /\ d !! "AUTHENTICATION_BACKENDS"
       = Some (VList [VStr "social_core.backends.keycloak.KeycloakOAuth2";
                      VStr "dynaconf_merge"])
    /\ d !! "GALAXY_TOKEN_EXPIRATION"
       = Some (get (settings st) "GALAXY_TOKEN_EXPIRATION" (VInt 1440)).
Proof.
  intros Hreq Hbase Hjoin. unfold keycloak_required in Hreq.
  eexists. split.
  - unfold configure_keycloak, bind, sget, sattr, lift, ret.
    rewrite Hreq, Hbase, Hjoin. reflexivity.
  - unfold keycloak_base, realm_path. cbv zeta.
    destruct (truthy (get (settings st) "KEYCLOAK_HOST_LOOPBACK" VNone));
      repeat split; lookup_inserted.
Qed.

Lemma configure_keycloak_no_base_dir E st :
  keycloak_required (settings st) = true ->
  store (settings st) !! "BASE_DIR" = None ->
  configure_keycloak E st = (Raise (AttributeError "BASE_DIR"), st).
Proof.
  unfold keycloak_required. intros Hreq Hbase.
  unfold configure_keycloak, bind, sget, sattr, lift, ret.
  rewrite Hreq, Hbase. reflexivity.
Qed.

(** X3.  [configure_keycloak] never changes the settings.  It returns the
    empty update as soon as one of the key, the secret, the public key,
    the host, the port and the realm is missing or falsy (the protocol is
    not among them), and what it returns holds
    GALAXY_AUTH_KEYCLOAK_ENABLED = True exactly when all six are truthy.
    With the six truthy and no BASE_DIR in the settings it raises the
    AttributeError of [settings.BASE_DIR]. *)
Theorem configure_keycloak_gate E st :
  snd (configure_keycloak E st) = st
  /\ (keycloak_required (settings st) = false -> configure_keycloak E st = (Ok ∅, st))
  /\ (forall d,
        fst (configure_keycloak E st) = Ok d ->
        (d !! "GALAXY_AUTH_KEYCLOAK_ENABLED" = Some (VBool true)
         <-> keycloak_required (settings st) = true))
  /\ (keycloak_required (settings st) = true ->
      store (settings st) !! "BASE_DIR" = None ->
      configure_keycloak E st = (Raise (AttributeError "BASE_DIR"), st)).
Proof.
  assert (Hbase_dir := configure_keycloak_no_base_dir E st).
  assert (Hoff : keycloak_required (settings st) = false ->
                 configure_keycloak E st = (Ok ∅, st)).
  { unfold keycloak_required. intros H.
    unfold configure_keycloak, bind, sget. rewrite H. reflexivity. }
  destruct (keycloak_required (settings st)) eqn:Hreq.
  - assert (Hcases :
      (exists d, configure_keycloak E st = (Ok d, st)
                 /\ d !! "GALAXY_AUTH_KEYCLOAK_ENABLED" = Some (VBool true))
      \/ (exists e, configure_keycloak E st = (Raise e, st))).
    { destruct (store (settings st) !! "BASE_DIR") as [base_dir|] eqn:Hbase.
      - destruct (path_join E base_dir "templates") as [templates|e] eqn:Hjoin.
        + left. destruct (configure_keycloak_run E st base_dir templates Hreq Hbase Hjoin)
            as (d & Hrun & Hen & _). eauto.
        + right. exists e. unfold keycloak_required in Hreq.
          unfold configure_keycloak, bind, sget, sattr, lift, ret.
          rewrite Hreq, Hbase, Hjoin. reflexivity.
      - right. eexists. unfold keycloak_required in Hreq.
        unfold configure_keycloak, bind, sget, sattr, lift, ret.
        rewrite Hreq, Hbase. reflexivity. }
    destruct Hcases as [(d & Hrun & Hen) | (e & Hrun)]; rewrite Hrun; cbn [fst snd].
    + split; [reflexivity|]. split; [discriminate|]. split;
        [|intros Hr Hb; rewrite <- Hrun; exact (Hbase_dir Hr Hb)].
      intros d' H. injection H as <-. tauto.
    + split; [reflexivity|]. split; [discriminate|]. split;
        [discriminate|intros Hr Hb; rewrite <- Hrun; exact (Hbase_dir Hr Hb)].
  - rewrite (Hoff eq_refl). cbn [fst snd]. split; [reflexivity|].
    split; [reflexivity|]. split; [|discriminate]. intros d H. injection H as <-.
    rewrite lookup_empty. split; discriminate.
Qed.

(** X4.  With keycloak configured, KEYCLOAK_ROLE_TOKEN_CLAIM of the update
    is read from the setting KEYCLOAK_GROUP_TOKEN_CLAIM, with the default
    "client_roles": when that setting is there, the role claim and the
    group claim of the update are the same value, and whatever the
    settings hold under KEYCLOAK_ROLE_TOKEN_CLAIM changes nothing of what
    the hook returns. *)
Theorem configure_keycloak_role_claim E st base_dir templates :
  keycloak_required (settings st) = true ->
  store (settings st) !! "BASE_DIR" = Some base_dir ->
  path_join E base_dir "templates" = Ok templates ->
  returned "KEYCLOAK_ROLE_TOKEN_CLAIM" (configure_keycloak E st)
  = Some (get (settings st) "KEYCLOAK_GROUP_TOKEN_CLAIM" (VStr "client_roles"))
  /\ (forall claim,
        store (settings st) !! "KEYCLOAK_GROUP_TOKEN_CLAIM" = Some claim ->
        returned "KEYCLOAK_ROLE_TOKEN_CLAIM" (configure_keycloak E st) = Some claim
        /\ returned "KEYCLOAK_GROUP_TOKEN_CLAIM" (configure_keycloak E st) = Some claim)
  /\ (forall v,
        fst (configure_keycloak E
               {| settings := set_store (settings st) "KEYCLOAK_ROLE_TOKEN_CLAIM" v;
                  trace := trace st |})
        = fst (configure_keycloak E st)).
Proof.
  intros Hreq Hbase Hjoin.
  destruct (configure_keycloak_run E st base_dir templates Hreq Hbase Hjoin)
    as (d & Hrun & _ & Hgroup & Hrole & _).
  split; [|split].
  - unfold returned. rewrite Hrun. exact Hrole.
  - intros claim Hc. unfold returned. rewrite Hrun. cbn [fst].
    rewrite Hrole, Hgroup. unfold get. rewrite Hc. auto.
  - intros v.
    unfold configure_keycloak, bind, sget, sattr, lift, ret. cbn [settings].
    rewrite !get_set_store_ne by discriminate.
    destruct (all _); [|reflexivity].
    cbn [settings]. rewrite !get_set_store_ne by discriminate.
    rewrite lookup_set_store_ne by discriminate.
    rewrite !Hbase, !Hjoin. reflexivity.
Qed.

(** X5.  With keycloak configured, KEYCLOAK_URL is
    [protocol://host:port] and the access token URL is built on it, always
    with KEYCLOAK_HOST; the authorization URL is built on
    KEYCLOAK_HOST_LOOPBACK instead when that one is truthy.  When
    KEYCLOAK_PROTOCOL is not set the URLs start with "None://". *)
Theorem configure_keycloak_urls E st base_dir templates :
  keycloak_required (settings st) = true ->
  store (settings st) !! "BASE_DIR" = Some base_dir ->
  path_join E base_dir "templates" = Ok templates ->
  let s := settings st in
  let host := get s "KEYCLOAK_HOST" VNone in
  let loopback := get s "KEYCLOAK_HOST_LOOPBACK" VNone in
  returned "KEYCLOAK_URL" (configure_keycloak E st) = Some (VStr (keycloak_base E s host))
  /\ returned "SOCIAL_AUTH_KEYCLOAK_ACCESS_TOKEN_URL" (configure_keycloak E st)
     = Some (VStr (keycloak_base E s host ++ realm_path E s "token/"))
  /\ returned "SOCIAL_AUTH_KEYCLOAK_AUTHORIZATION_URL" (configure_keycloak E st)
     = Some (VStr (keycloak_base E s (if truthy loopback then loopback else host)
                   ++ realm_path E s "auth/"))
  /\ (store s !! "KEYCLOAK_PROTOCOL" = None ->
      String.prefix "None://" (keycloak_base E s host) = true).
Proof.
  intros Hreq Hbase Hjoin s host loopback.
  destruct (configure_keycloak_run E st base_dir templates Hreq Hbase Hjoin)
    as (d & Hrun & _ & _ & _ & Hurl & Htoken & Hauth & _).
  unfold returned. rewrite Hrun. cbn [fst].
  split; [exact Hurl|]. split; [exact Htoken|]. split; [exact Hauth|].
  intros Hp. unfold keycloak_base, get. subst s. rewrite Hp.
  unfold fstr. cbn [default from_option id str].
  apply (prefix_app "None://").
Qed.

Lemma configure_keycloak_role_claim_witness :
  let st := start keycloak_and_github in
  returned "KEYCLOAK_ROLE_TOKEN_CLAIM" (configure_keycloak plain_env st)
  = Some (get (settings st) "KEYCLOAK_GROUP_TOKEN_CLAIM" (VStr "client_roles"))
  /\ (forall claim,
        store (settings st) !! "KEYCLOAK_GROUP_TOKEN_CLAIM" = Some claim ->
        returned "KEYCLOAK_ROLE_TOKEN_CLAIM" (configure_keycloak plain_env st) = Some claim
        /\ returned "KEYCLOAK_GROUP_TOKEN_CLAIM" (configure_keycloak plain_env st)
           = Some claim)
  /\ (forall v,
        fst (configure_keycloak plain_env
               {| settings := set_store (settings st) "KEYCLOAK_ROLE_TOKEN_CLAIM" v;
                  trace := trace st |})
        = fst (configure_keycloak plain_env st)).
Proof.
  apply (configure_keycloak_role_claim plain_env (start keycloak_and_github)
           (VStr "/app") (VStr "/app/templates")); reflexivity.
Defined.

Lemma configure_keycloak_urls_witness :
  let st := start keycloak_and_github in
  let s := settings st in
  let host := get s "KEYCLOAK_HOST" VNone in
  let loopback := get s "KEYCLOAK_HOST_LOOPBACK" VNone in
  returned "KEYCLOAK_URL" (configure_keycloak plain_env st)
  = Some (VStr (keycloak_base plain_env s host))
  /\ returned "SOCIAL_AUTH_KEYCLOAK_ACCESS_TOKEN_URL" (configure_keycloak plain_env st)
     = Some (VStr (keycloak_base plain_env s host ++ realm_path plain_env s "token/"))
  /\ returned "SOCIAL_AUTH_KEYCLOAK_AUTHORIZATION_URL" (configure_keycloak plain_env st)
     = Some (VStr (keycloak_base plain_env s (if truthy loopback then loopback else host)
                   ++ realm_path plain_env s "auth/"))
  /\ (store s !! "KEYCLOAK_PROTOCOL" = None ->
      String.prefix "None://" (keycloak_base plain_env s host) = true).
Proof.
  apply (configure_keycloak_urls plain_env (start keycloak_and_github)
           (VStr "/app") (VStr "/app/templates")); reflexivity.
Defined.

Example keycloak_token_url :
  returned "SOCIAL_AUTH_KEYCLOAK_ACCESS_TOKEN_URL"
    (configure_keycloak plain_env (start keycloak_and_github))
  = Some (VStr "https://sso.example.org:8443/auth/realms/aap/protocol/openid-connect/token/").
Proof. vm_compute. reflexivity. Qed.

Example keycloak_raises_without_base_dir :
  configure_keycloak plain_env (start keycloak_without_base_dir)
  = (Raise (AttributeError "BASE_DIR"), start keycloak_without_base_dir).
Proof.
  apply (configure_keycloak_no_base_dir plain_env (start keycloak_without_base_dir));
    reflexivity.
Qed.

(** ** GitHub login *)





(** ** Access log and CORS *)

(** X7.  [configure_logging] never changes the settings.  It takes the
    switch from the settings, else from the environment, else [False], and
    always returns it under GALAXY_ENABLE_API_ACCESS_LOG: alone when it is
    falsy, with INSTALLED_APPS, MIDDLEWARE, LOGGING and AUTOMATED_LOGGING
    when it is truthy.  A switch that comes from the environment is a
    text, so any text that is not empty enables the access log. *)
Theorem configure_logging_switch E st :
  snd (configure_logging E st) = st
  /\ returned ACCESS_LOG (configure_logging E st) = Some (access_log_switch E (settings st))
  /\ (truthy (access_log_switch E (settings st)) = false ->
      configure_logging E st
      = (Ok {[ ACCESS_LOG := access_log_switch E (settings st) ]}, st))
  /\ (truthy (access_log_switch E (settings st)) = true ->
      returned "INSTALLED_APPS" (configure_logging E st)
      = Some (VList [VStr "galaxy_ng._vendor.automated_logging";
                     VStr "dynaconf_merge_unique"])
      /\ returned "MIDDLEWARE" (configure_logging E st)
         = Some (VList [VStr "automated_logging.middleware.AutomatedLoggingMiddleware";
                        VStr "dynaconf_merge"])
      /\ is_Some (returned "LOGGING" (configure_logging E st))
      /\ is_Some (returned "AUTOMATED_LOGGING" (configure_logging E st)))
  /\ (forall text,
        store (settings st) !! ACCESS_LOG = None ->
        environ E !! ACCESS_LOG = Some text ->
        text <> "" ->
        truthy (access_log_switch E (settings st)) = true).
Proof.
  assert (Hsw : get (settings st) ACCESS_LOG (getenv E ACCESS_LOG (VBool false))
                = access_log_switch E (settings st)).
  { unfold get, getenv, access_log_switch.
    destruct (store (settings st) !! ACCESS_LOG); [reflexivity|].
    destruct (environ E !! ACCESS_LOG); reflexivity. }
  assert (Hrun : configure_logging E st
                 = (fst (configure_logging E st), st)).
  { unfold configure_logging, bind, sget. destruct (truthy _); reflexivity. }
  split; [rewrite Hrun; reflexivity|].
  unfold returned, configure_logging, bind, sget, ret. fold ACCESS_LOG. rewrite Hsw.
  split; [|split; [|split]].
  - destruct (truthy _); cbn [fst]; [(repeat (rewrite lookup_insert_ne by discriminate); first [apply lookup_insert_eq | apply lookup_singleton_eq]) | apply lookup_singleton_eq].
  - intros ->. reflexivity.
  - intros ->. cbn [fst]. repeat split; try (eexists; (repeat (rewrite lookup_insert_ne by discriminate); first [apply lookup_insert_eq | apply lookup_singleton_eq])); (repeat (rewrite lookup_insert_ne by discriminate); first [apply lookup_insert_eq | apply lookup_singleton_eq]).
  - intros text Hs He Hne. unfold access_log_switch. rewrite Hs, He. cbn.
    destruct text; [contradiction|reflexivity].
Qed.

(** X8.  [configure_cors] never changes the settings and returns the
    empty update when DEV_SOURCE_PATH is not in the environment, whatever
    GALAXY_ENABLE_CORS holds.  With the variable set and CORS enabled, it
    returns under MIDDLEWARE the CORS middleware followed by the
    middleware of the settings; a MIDDLEWARE that is not a list makes the
    concatenation raise a TypeError. *)
Theorem configure_cors_dev_only E st :
  snd (configure_cors E st) = st
  /\ (environ E !! "DEV_SOURCE_PATH" = None -> configure_cors E st = (Ok ∅, st))
  /\ (forall path,
        environ E !! "DEV_SOURCE_PATH" = Some path ->
        (truthy (get (settings st) "GALAXY_ENABLE_CORS" (VBool false)) = false ->
         configure_cors E st = (Ok ∅, st))
        /\ (truthy (get (settings st) "GALAXY_ENABLE_CORS" (VBool false)) = true ->
            (forall middleware,
                get (settings st) "MIDDLEWARE" (VList []) = VList middleware ->
                configure_cors E st
                = (Ok {[ "MIDDLEWARE" := VList (cors_middleware :: middleware) ]}, st))
            /\ ((forall middleware,
                    get (settings st) "MIDDLEWARE" (VList []) <> VList middleware) ->
                configure_cors E st
                = (Raise (TypeError "can only concatenate list to list"), st)))).
Proof.
  unfold configure_cors, getenv.
  destruct (environ E !! "DEV_SOURCE_PATH") as [p|] eqn:Hdev; cbn [is_none].
  - unfold bind, sget, lift, ret, list_concat.
    split.
    { destruct (truthy _); [|reflexivity].
      destruct (get (settings st) "MIDDLEWARE" (VList [])); reflexivity. }
    split; [discriminate|]. intros path _. split.
    + intros ->. reflexivity.
    + intros ->. split.
      * intros middleware ->. reflexivity.
      * intros Hno. destruct (get (settings st) "MIDDLEWARE" (VList [])) eqn:Hm;
          try reflexivity.
        destruct (Hno l). reflexivity.
  - split; [reflexivity|]. split; [reflexivity|]. intros path H. discriminate H.
Qed.

(** ** The consolidated class list *)

Lemma py_eq_session_refl : py_eq SESSION SESSION = true.
Proof. apply py_eq_str_r. reflexivity. Qed.

Lemma session_first_head (classes : list value) :
  classes <> [] -> exists rest, session_first classes = SESSION :: rest.
Proof.
  destruct classes as [|first rest]; [contradiction|]. intros _.
  unfold session_first. fold SESSION.
  destruct (py_eq first SESSION) eqn:Hf; cbn [negb].
  - apply py_eq_str_r in Hf. subst first. eauto.
  - unfold insert0. eauto.
Qed.

Lemma session_first_fixed (rest : list value) :
  session_first (SESSION :: rest) = SESSION :: rest.
Proof. unfold session_first. fold SESSION. rewrite py_eq_session_refl. reflexivity. Qed.

Lemma session_first_nil (classes : list value) :
  session_first classes = [] <-> classes = [].
Proof.
  split; [|intros ->; reflexivity].
  destruct classes as [|first rest]; [reflexivity|].
  intros H. destruct (session_first_head (first :: rest)) as (r & Hr); [discriminate|].
  rewrite Hr in H. discriminate H.
Qed.

(** Membership of a name is not changed by the move of the session class,
    nor lost when the keycloak classes are added. *)
Lemma py_in_remove_other (name : string) (x : value) (l : list value) :
  py_eq x (VStr name) = false ->
  py_in x (Py.remove (VStr name) l) = py_in x l.
Proof.
  intros Hx. induction l as [|y l IH]; [reflexivity|].
  cbn [Py.remove]. destruct (py_eq y (VStr name)) eqn:Hy.
  - apply py_eq_str_r in Hy. subst y. unfold py_in. cbn [existsb].
    destruct (py_eq x (VStr name)); [discriminate | reflexivity].
  - unfold py_in in *. cbn [existsb]. rewrite IH. reflexivity.
Qed.

Lemma py_in_session_first (name : string) (classes : list value) :
  name <> galaxy_session ->
  py_in (VStr name) (session_first classes) = py_in (VStr name) classes.
Proof.
  intros Hne.
  assert (Hx : py_eq (VStr name) SESSION = false).
  { destruct (py_eq (VStr name) SESSION) eqn:H; [|reflexivity].
    apply py_eq_str_r in H. congruence. }
  destruct classes as [|first rest]; [reflexivity|].
  unfold session_first. fold SESSION.
  destruct (py_eq first SESSION); cbn [negb]; [reflexivity|].
  unfold insert0, py_in at 1. cbn [existsb]. rewrite Hx. cbn [orb].
  fold (py_in (VStr name)).
  destruct (py_in SESSION (first :: rest)); [|reflexivity].
  apply py_in_remove_other. exact Hx.
Qed.

Lemma add_keycloak_classes_fixed (classes : list value) :
  py_in (VStr "galaxy_ng.app.auth.token.ExpiringTokenAuthentication") classes = true ->
  py_in (VStr "galaxy_ng.app.auth.keycloak.KeycloakBasicAuth") classes = true ->
  add_keycloak_classes classes = classes.
Proof.
  intros He Hk. unfold add_keycloak_classes, not_in. cbn [fold_left].
  rewrite He. cbn [negb]. rewrite Hk. reflexivity.
Qed.

Lemma add_keycloak_classes_holds (classes : list value) :
  py_in (VStr "galaxy_ng.app.auth.token.ExpiringTokenAuthentication")
    (add_keycloak_classes classes) = true
  /\ py_in (VStr "galaxy_ng.app.auth.keycloak.KeycloakBasicAuth")
       (add_keycloak_classes classes) = true.
Proof.
  unfold add_keycloak_classes, not_in, insert0. cbn [fold_left].
  destruct (py_in (VStr "galaxy_ng.app.auth.token.ExpiringTokenAuthentication") classes)
    eqn:He; cbn [negb].
  - destruct (py_in (VStr "galaxy_ng.app.auth.keycloak.KeycloakBasicAuth") classes)
      eqn:Hk; cbn [negb].
    + auto.
    + split.
      * unfold py_in in *. cbn [existsb]. rewrite He. apply orb_true_r.
      * unfold py_in. cbn [existsb]. rewrite (proj2 (py_eq_str_r _ _) eq_refl). reflexivity.
  - assert (He' : py_in (VStr "galaxy_ng.app.auth.token.ExpiringTokenAuthentication")
                    (VStr "galaxy_ng.app.auth.token.ExpiringTokenAuthentication" :: classes)
                  = true).
    { unfold py_in. cbn [existsb]. rewrite (proj2 (py_eq_str_r _ _) eq_refl). reflexivity. }
    destruct (py_in (VStr "galaxy_ng.app.auth.keycloak.KeycloakBasicAuth") _) eqn:Hk;
      cbn [negb].
    + auto.
    + split.
      * unfold py_in in *. cbn [existsb] in *. rewrite He'. apply orb_true_r.
      * unfold py_in. cbn [existsb]. rewrite (proj2 (py_eq_str_r _ _) eq_refl). reflexivity.
Qed.

Lemma add_keycloak_classes_nonempty (classes : list value) :
  add_keycloak_classes classes <> [].
Proof.
  destruct (add_keycloak_classes_holds classes) as [He _].
  intros H. rewrite H in He. discriminate He.
Qed.

Lemma consolidate_nil (keycloak_enabled : bool) (classes : list value) :
  consolidate keycloak_enabled classes = [] <-> classes = [] /\ keycloak_enabled = false.
Proof.
  unfold consolidate. rewrite session_first_nil. destruct keycloak_enabled.
  - split; [intros H; destruct (add_keycloak_classes_nonempty _ H) | intros [_ H]; discriminate H].
  - tauto.
Qed.

Lemma consolidate_head (keycloak_enabled : bool) (classes : list value) :
  consolidate keycloak_enabled classes <> [] ->
  exists rest, consolidate keycloak_enabled classes = SESSION :: rest.
Proof.
  unfold consolidate. intros Hne. apply session_first_head.
  intros H. apply Hne. rewrite H. reflexivity.
Qed.

(** X9.  The list that [configure_authentication_classes] builds from
    the classes it found is empty only when it found none and keycloak is
    off; when it is not empty, it starts with the session class.  Building
    it again from the result changes nothing, and with keycloak on the
    result holds both keycloak classes. *)
Theorem consolidate_invariants (keycloak_enabled : bool) (classes : list value) :
  let result := consolidate keycloak_enabled classes in
  (result = [] <-> classes = [] /\ keycloak_enabled = false)
  /\ (result <> [] -> exists rest, result = SESSION :: rest)
  /\ consolidate keycloak_enabled result = result
  /\ (keycloak_enabled = true ->
      py_in (VStr "galaxy_ng.app.auth.token.ExpiringTokenAuthentication") result = true
      /\ py_in (VStr "galaxy_ng.app.auth.keycloak.KeycloakBasicAuth") result = true).
Proof.
  intros result. subst result. unfold consolidate.
  assert (Hkc : keycloak_enabled = true ->
                py_in (VStr "galaxy_ng.app.auth.token.ExpiringTokenAuthentication")
                  (session_first (add_keycloak_classes classes)) = true
                /\ py_in (VStr "galaxy_ng.app.auth.keycloak.KeycloakBasicAuth")
                     (session_first (add_keycloak_classes classes)) = true).
  { intros _. rewrite !py_in_session_first by discriminate.
    apply add_keycloak_classes_holds. }
  split; [|split; [|split]].
  - apply consolidate_nil.
  - apply consolidate_head.
  - destruct keycloak_enabled.
    + destruct (Hkc eq_refl) as [He Hk].
      rewrite add_keycloak_classes_fixed by assumption.
      destruct (session_first_head (add_keycloak_classes classes)
                  (add_keycloak_classes_nonempty _)) as (rest & ->).
      apply session_first_fixed.
    + destruct classes as [|first rest]; [reflexivity|].
      destruct (session_first_head (first :: rest)) as (r & ->); [discriminate|].
      apply session_first_fixed.
  - intros ->. apply Hkc. reflexivity.
Qed.

(** X10.  For a list of classes (or nothing) under
    GALAXY_AUTHENTICATION_CLASSES, in the data or else in the settings,
    [configure_authentication_classes] returns.  When the consolidated
    list is not empty, the update holds it under
    ANSIBLE_AUTHENTICATION_CLASSES, GALAXY_AUTHENTICATION_CLASSES and
    REST_FRAMEWORK__DEFAULT_AUTHENTICATION_CLASSES alike, with the session
    class first; when it is empty the data come back as they were. *)
Theorem configure_authentication_classes_same_list data st classes :
  class_list (default (get (settings st) GAC VNone) (data !! GAC)) = Some classes ->
  let result := consolidate (is_True (dget data "GALAXY_AUTH_KEYCLOAK_ENABLED")) classes in
  exists d st',
    configure_authentication_classes data st = (Ok d, st')
    /\ (result <> [] ->
        d !! "ANSIBLE_AUTHENTICATION_CLASSES" = Some (VList result)
        /\ d !! GAC = Some (VList result)
        /\ d !! "REST_FRAMEWORK__DEFAULT_AUTHENTICATION_CLASSES" = Some (VList result)
        /\ exists rest, result = SESSION :: rest)
    /\ (result = [] -> d = data).
Proof.
  intros Hsrc result.
  assert (Hhead : result <> [] -> exists rest, result = SESSION :: rest)
    by apply consolidate_head.
  assert (Hset : forall d0 : dict,
             result <> [] ->
             set_authentication_classes result d0 !! "ANSIBLE_AUTHENTICATION_CLASSES"
             = Some (VList result)
             /\ set_authentication_classes result d0 !! GAC = Some (VList result)
             /\ set_authentication_classes result d0
                !! "REST_FRAMEWORK__DEFAULT_AUTHENTICATION_CLASSES" = Some (VList result)
             /\ exists rest, result = SESSION :: rest).
  { intros d0 Hne. unfold set_authentication_classes, GAC. repeat split.
    - rewrite !lookup_insert_ne by discriminate. apply lookup_insert_eq.
    - rewrite lookup_insert_ne by discriminate. apply lookup_insert_eq.
    - apply lookup_insert_eq.
    - apply Hhead. exact Hne. }
  assert (Hlen : (0 <? length result)%nat = negb (Nat.eqb (length result) 0))
    by (destruct result; reflexivity).
  unfold configure_authentication_classes. fold GAC.
  unfold bind at 1. unfold sget at 1.
  destruct (data !! GAC) as [v|] eqn:Hd; cbn [default from_option id] in *.
  - destruct v; try discriminate Hsrc; cbn [class_list] in Hsrc;
      injection Hsrc as <-; cbn [is_none]; fold result; unfold bind, ret.
    + destruct result as [|c r] eqn:Hr; cbn [length Nat.ltb Nat.leb].
      * eexists _, _. split; [reflexivity|]. split; [congruence | reflexivity].
      * eexists _, _. split; [reflexivity|]. split; [|discriminate].
        intros Hne. apply Hset. exact Hne.
    + destruct result as [|c r] eqn:Hr; cbn [length Nat.ltb Nat.leb].
      * eexists _, _. split; [reflexivity|]. split; [congruence|].
        intros _. apply insert_id. rewrite Hd. f_equal. f_equal.
        subst result.
        destruct (proj1 (consolidate_nil
          (is_True (dget data "GALAXY_AUTH_KEYCLOAK_ENABLED")) l) Hr) as [-> _]. reflexivity.
      * eexists _, _. split; [reflexivity|]. split; [|discriminate].
        intros Hne. apply Hset. exact Hne.
  - destruct (get (settings st) GAC VNone) eqn:Hg; try discriminate Hsrc;
      cbn [class_list] in Hsrc; injection Hsrc as <-; cbn [is_none]; fold result;
      unfold bind, ret, mutated.
    + destruct result as [|c r] eqn:Hr; cbn [length Nat.ltb Nat.leb].
      * eexists _, _. split; [reflexivity|]. split; [congruence | reflexivity].
      * eexists _, _. split; [reflexivity|]. split; [|discriminate].
        intros Hne. apply Hset. exact Hne.
    + destruct (store (settings st) !! GAC);
        destruct result as [|c r] eqn:Hr; cbn [length Nat.ltb Nat.leb];
        eexists _, _; (split; [reflexivity|]); split;
        first [congruence | discriminate | reflexivity | (intros Hne; apply Hset; exact Hne)].
Qed.

Lemma configure_authentication_classes_same_list_witness :
  exists d st',
    configure_authentication_classes misplaced_session (start (settings_of [])) = (Ok d, st')
    /\ d !! "REST_FRAMEWORK__DEFAULT_AUTHENTICATION_CLASSES"
       = Some (VList [VStr galaxy_session;
                      VStr "rest_framework.authentication.TokenAuthentication";
                      VStr "rest_framework.authentication.BasicAuthentication"]).
Proof.
  destruct (configure_authentication_classes_same_list misplaced_session
              (start (settings_of []))
              [VStr "rest_framework.authentication.TokenAuthentication";
               VStr galaxy_session;
               VStr "rest_framework.authentication.BasicAuthentication"]
              eq_refl) as (d & st' & Hrun & Hset & _).
  exists d, st'. split; [exact Hrun|].
  apply Hset. discriminate.
Defined.

(** ** Password validators *)

Lemma dict_get_set_eq (d : list (value * value)) (k : string) (v : value) :
  dict_get (dict_set d (VStr k) v) (VStr k) = Some v.
Proof.
  induction d as [|[k' v'] d IH]; cbn [dict_set dict_get].
  - rewrite (proj2 (py_eq_str_r (VStr k) k) eq_refl). reflexivity.
  - destruct (py_eq k' (VStr k)) eqn:Hk; cbn [dict_get]; rewrite Hk; [reflexivity | exact IH].
Qed.

Lemma dict_get_set_ne (d : list (value * value)) (k k2 : string) (v : value) :
  k <> k2 -> dict_get (dict_set d (VStr k) v) (VStr k2) = dict_get d (VStr k2).
Proof.
  intros Hne.
  assert (Hf : forall x, py_eq x (VStr k) = true -> py_eq x (VStr k2) = false).
  { intros x Hx. apply py_eq_str_r in Hx as ->.
    destruct (py_eq (VStr k) (VStr k2)) eqn:H; [|reflexivity].
    apply py_eq_str_r in H. congruence. }
  induction d as [|[k' v'] d IH]; cbn [dict_set dict_get].
  - rewrite (Hf (VStr k)) by (apply py_eq_str_r; reflexivity). reflexivity.
  - destruct (py_eq k' (VStr k)) eqn:Hk; cbn [dict_get].
    + rewrite (Hf k' Hk). reflexivity.
    + destruct (py_eq k' (VStr k2)); [reflexivity | exact IH].
Qed.

Lemma set_min_length_ok E (min_length item : value) (n : Z) :
  py_int E min_length = Ok n ->
  well_formed item = true ->
  exists item',
    set_min_length E min_length item = (item', None)
    /\ validator_name item' = validator_name item
    /\ well_formed item' = true
    /\ (if is_min_length item
        then min_length_of item' = Some (VInt n)
        else item' = item).
Proof.
  intros Hint Hwf. unfold is_min_length.
  destruct item as [| | | | | |d|]; try discriminate Hwf.
  unfold well_formed in Hwf. cbn [validator_name] in *. unfold set_min_length.
  destruct (dict_get d (VStr "NAME")) as [[| | |name| | | |]|] eqn:Hname;
    try discriminate Hwf.
  destruct (endswith name "MinimumLengthValidator") eqn:Hend.
  - rewrite Hint.
    destruct (dict_get d (VStr "OPTIONS")) as [[| | | | | |options|]|] eqn:Hopt;
      try discriminate Hwf.
    cbn [setitem hashable]. eexists. split; [reflexivity|].
    cbn [validator_name min_length_of well_formed].
    rewrite dict_get_set_ne by discriminate. rewrite Hname, Hend.
    repeat (rewrite dict_get_set_eq; cbv beta iota). auto.
  - exists (VDict d). cbn [validator_name well_formed]. rewrite Hname, Hend. auto.
Qed.

Lemma set_min_lengths_ok E (min_length : value) (n : Z) (items : list value) :
  py_int E min_length = Ok n ->
  forallb well_formed items = true ->
  exists items',
    set_min_lengths E min_length items = (items', None)
    /\ Forall2 (min_length_set n) items items'.
Proof.
  intros Hint. induction items as [|item items IH]; intros Hwf.
  - exists []. split; [reflexivity | constructor].
  - cbn [forallb] in Hwf. apply andb_prop in Hwf as [Hitem Hrest].
    destruct (set_min_length_ok E min_length item n Hint Hitem)
      as (item' & Hset & Hname & _ & Hlen).
    destruct (IH Hrest) as (items' & Hsets & Hall).
    exists (item' :: items'). cbn [set_min_lengths]. rewrite Hset, Hsets.
    split; [reflexivity|]. constructor; [split; assumption | exact Hall].
Qed.

(** X11.  With a list of well-formed entries under
    AUTH_PASSWORD_VALIDATORS and a minimum length that [int] accepts
    (9 when GALAXY_MINIMUM_PASSWORD_LENGTH is not set),
    [configure_password_validators] returns a list of as many entries with
    the same names, in which every entry whose name ends with
    "MinimumLengthValidator" has that length under OPTIONS.min_length and
    every other entry is unchanged; the list of the settings is changed
    likewise. *)
Theorem configure_password_validators_min_length E st items n :
  store (settings st) !! APV = Some (VList items) ->
  py_int E (get (settings st) "GALAXY_MINIMUM_PASSWORD_LENGTH" (VInt 9)) = Ok n ->
  forallb well_formed items = true ->
  exists items',
    configure_password_validators E st
    = (Ok {[ APV := VList items' ]},
       {| settings := set_store (settings st) APV (VList items'); trace := trace st |})
    /\ Forall2 (min_length_set n) items items'
    /\ length items' = length items.
Proof.
  intros Hstore Hint Hwf.
  destruct (set_min_lengths_ok E _ n items Hint Hwf) as (items' & Hset & Hall).
  exists items'. split; [|split; [exact Hall | symmetry; exact (Forall2_length _ _ _ Hall)]].
  unfold configure_password_validators, bind, sget, sattr, mutated, ret. fold APV.
  rewrite Hstore, Hset. cbn [settings store]. rewrite Hstore. reflexivity.
Qed.


Lemma configure_password_validators_min_length_witness :
  exists items',
    configure_password_validators plain_env (start password_settings)
    = (Ok {[ APV := VList items' ]},
       {| settings := set_store password_settings APV (VList items'); trace := [] |})
    /\ Forall2 (min_length_set 12) django_validators items'
    /\ length items' = length django_validators.
Proof.
  apply (configure_password_validators_min_length plain_env (start password_settings)
           django_validators 12); reflexivity.
Defined.

Example password_min_length_12 :
  returned APV (configure_password_validators plain_env (start password_settings))
  = Some (VList
            [sdict [("NAME", VStr "django.contrib.auth.password_validation.UserAttributeSimilarityValidator")];
             sdict [("NAME", VStr "django.contrib.auth.password_validation.MinimumLengthValidator");
                    ("OPTIONS", sdict [("min_length", VInt 12)])]]).
Proof. vm_compute. reflexivity. Qed.

(** ** The API root *)

Lemma lstrip_slash_other (c : ascii) (s : string) :
  c <> "/"%char -> lstrip_slash (String c s) = String c s.
Proof.
  intros Hc. destruct c as [[] [] [] [] [] [] [] []]; try reflexivity.
  contradiction Hc. reflexivity.
Qed.

Lemma rstrip_slash_app (s : string) : rstrip_slash (s ++ "/") = rstrip_slash s.
Proof.
  induction s as [|c s IH]; [reflexivity|].
  change (String c s ++ "/") with (String c (s ++ "/")).
  cbn [rstrip_slash]. rewrite IH. reflexivity.
Qed.

Lemma strip_slash_leading (s : string) : strip_slash ("/" ++ s) = strip_slash s.
Proof. reflexivity. Qed.

Lemma strip_slash_trailing (s : string) : strip_slash (s ++ "/") = strip_slash s.
Proof.
  unfold strip_slash. induction s as [|c s IH]; [reflexivity|].
  destruct (ascii_dec c "/"%char) as [-> | Hc].
  - exact IH.
  - change (String c s ++ "/") with (String c (s ++ "/")).
    rewrite !lstrip_slash_other by exact Hc.
    apply (rstrip_slash_app (String c s)).
Qed.

Lemma rstrip_slash_idem (s : string) : rstrip_slash (rstrip_slash s) = rstrip_slash s.
Proof.
  induction s as [|c s IH]; [reflexivity|].
  cbn [rstrip_slash]. destruct (rstrip_slash s) as [|d r] eqn:Hr.
  - destruct (Ascii.eqb c "/"%char) eqn:Hc; [reflexivity|].
    cbn [rstrip_slash]. rewrite Hc. reflexivity.
  - remember (String d r) as x eqn:Hx. cbn [rstrip_slash]. rewrite IH.
    subst x. reflexivity.
Qed.

Lemma rstrip_slash_head (c : ascii) (s : string) :
  c <> "/"%char -> exists r, rstrip_slash (String c s) = String c r.
Proof.
  intros Hc. cbn [rstrip_slash]. destruct (rstrip_slash s) as [|d r].
  - destruct (Ascii.eqb_spec c "/"%char) as [->|_]; [contradiction|]. eauto.
  - eauto.
Qed.

Lemma lstrip_slash_head (s : string) :
  lstrip_slash s = "" \/ exists c r, lstrip_slash s = String c r /\ c <> "/"%char.
Proof.
  induction s as [|c s IH]; [left; reflexivity|].
  destruct (ascii_dec c "/"%char) as [-> | Hc].
  - exact IH.
  - right. exists c, s. split; [apply lstrip_slash_other; exact Hc | exact Hc].
Qed.

Lemma strip_slash_idem (s : string) : strip_slash (strip_slash s) = strip_slash s.
Proof.
  unfold strip_slash. destruct (lstrip_slash_head s) as [-> | (c & r & -> & Hc)].
  - reflexivity.
  - destruct (rstrip_slash_head c r Hc) as (r' & Hr). rewrite Hr.
    rewrite lstrip_slash_other by exact Hc. rewrite <- Hr. apply rstrip_slash_idem.
Qed.

(** X13.  For a text under GALAXY_API_PATH_PREFIX,
    [configure_api_base_path] returns as API_ROOT the prefix without its
    leading and trailing slashes, between "/" and "/pulp/", and changes
    nothing else; the root is the same whether or not the prefix starts or
    ends with a slash.  Without the setting, or with a value that is not a
    text, [strip] raises an AttributeError. *)
Theorem configure_api_base_path_root st :
  (forall root,
      get (settings st) "GALAXY_API_PATH_PREFIX" VNone = VStr root ->
      configure_api_base_path st = (Ok {[ "API_ROOT" := VStr (api_root root) ]}, st))
  /\ (forall root,
        api_root ("/" ++ root) = api_root root
        /\ api_root (root ++ "/") = api_root root
        /\ api_root (strip_slash root) = api_root root)
  /\ ((forall root, get (settings st) "GALAXY_API_PATH_PREFIX" VNone <> VStr root) ->
      configure_api_base_path st = (Raise (AttributeError "strip"), st)).
Proof.
  unfold configure_api_base_path, bind, sget. split; [|split].
  - intros root ->. reflexivity.
  - intros root. unfold api_root.
    rewrite strip_slash_leading, strip_slash_trailing, strip_slash_idem. auto.
  - intros Hno. destruct (get (settings st) "GALAXY_API_PATH_PREFIX" VNone) eqn:Hg;
      try reflexivity.
    destruct (Hno s). reflexivity.
Qed.

(** ** LDAP *)

Lemma configure_ldap_closed E st :
  ldap_enabled (settings st) = false -> configure_ldap E st = (Ok ∅, st).
Proof.
  unfold ldap_enabled, ldap_required. cbn [map]. intros Hoff.
  unfold configure_ldap.
  do 10 (unfold bind at 1; unfold sget at 1).
  rewrite Hoff. reflexivity.
Qed.

Lemma option_set_keeps (b : bool) (obj k v : value) (key : string) st r st1 :
  (if b then let* o := lift (setitem obj k v) in mutated key o >> ret o else ret obj) st
  = (r, st1) ->
  forall key', key' <> key -> get (settings st1) key' = get (settings st) key'.
Proof.
  intros H key' Hne. unfold get. destruct b.
  - unfold bind, lift, mutated, ret in H.
    destruct (setitem obj k v); [|injection H as _ <-; reflexivity].
    destruct (store (settings st) !! key); injection H as _ <-; [|reflexivity].
    cbn. rewrite lookup_insert_ne by congruence. reflexivity.
  - injection H as _ <-. reflexivity.
Qed.

Lemma search_step E (present scope base filter : value) (key : string)
    (data d : dict) st st1 :
  (if negb (truthy present)
   then let* sc := lift (scope_map_get E scope) in
        ret (<[key := LDAPSearch base sc filter]> data)
   else ret data) st = (Ok d, st1) ->
  st1 = st
  /\ (forall key', key' <> key -> d !! key' = data !! key')
  /\ (if truthy present then d !! key = data !! key
      else exists sc, scope_map_get E scope = Ok sc
                      /\ d !! key = Some (LDAPSearch base sc filter)).
Proof.
  intros H. destruct (truthy present); cbn [negb] in H.
  - injection H as <- <-. auto.
  - unfold bind, lift, ret in H. destruct (scope_map_get E scope) as [sc|]; [|discriminate H].
    injection H as <- <-. split; [reflexivity|]. split.
    + intros key' Hne. apply lookup_insert_ne. congruence.
    + exists sc. split; [reflexivity|]. apply lookup_insert_eq.
Qed.

Lemma scope_map_get_default E (name : string) :
  name <> "BASE" -> name <> "ONELEVEL" ->
  scope_map_get E (VStr name) = Ok (SCOPE_SUBTREE (ldap E)).
Proof.
  intros Hb Ho. unfold scope_map_get. cbn [hashable].
  change (py_eq (VStr name) (VStr "BASE")) with (String.eqb name "BASE").
  change (py_eq (VStr name) (VStr "ONELEVEL")) with (String.eqb name "ONELEVEL").
  apply String.eqb_neq in Hb, Ho. rewrite Hb, Ho.
  destruct (py_eq _ _); reflexivity.
Qed.

Ltac through_inserts :=
  repeat match goal with
         | |- context [if ?b then _ else _] => destruct b
         | |- context [match ?x with _ => _ end] => destruct x
         end;
  repeat (rewrite lookup_insert_ne by discriminate).

Lemma configure_ldap_open E st d st' :
  configure_ldap E st = (Ok d, st') ->
  ldap_enabled (settings st) = true ->
  let s := settings st in
  d !! "GALAXY_AUTH_LDAP_ENABLED" = Some (VBool true)
  /\ (if truthy (get s "AUTH_LDAP_USER_SEARCH" VNone)
      then d !! "AUTH_LDAP_USER_SEARCH" = None
      else exists scope,
             scope_map_get E (get s "AUTH_LDAP_USER_SEARCH_SCOPE" VNone) = Ok scope
             /\ d !! "AUTH_LDAP_USER_SEARCH"
                = Some (LDAPSearch (get s "AUTH_LDAP_USER_SEARCH_BASE_DN" VNone) scope
                          (get s "AUTH_LDAP_USER_SEARCH_FILTER" VNone)))
  /\ (if truthy (get s "AUTH_LDAP_GROUP_SEARCH" VNone)
      then d !! "AUTH_LDAP_GROUP_SEARCH" = None
      else exists scope,
             scope_map_get E (get s "AUTH_LDAP_GROUP_SEARCH_SCOPE" VNone) = Ok scope
             /\ d !! "AUTH_LDAP_GROUP_SEARCH"
                = Some (LDAPSearch (get s "AUTH_LDAP_GROUP_SEARCH_BASE_DN" VNone) scope
                          (get s "AUTH_LDAP_GROUP_SEARCH_FILTER" VNone)))
  /\ (forall name, name <> "BASE" -> name <> "ONELEVEL" ->
                   scope_map_get E (VStr name) = Ok (SCOPE_SUBTREE (ldap E))).
Proof.
  unfold ldap_enabled, ldap_required. cbn [map]. intros H Hon. cbv zeta.
  unfold configure_ldap in H.
  do 10 (apply bind_ok in H as (? & ? & Hv & H); apply sget_ok in Hv as [-> ->]).
  rewrite Hon in H.
  do 2 (apply bind_ok in H as (? & ? & Hv & H); apply sget_ok in Hv as [-> ->]).
  apply bind_ok in H as (global_options & s1 & Hgo & H).
  pose proof (option_set_keeps _ _ _ _ _ _ _ _ Hgo) as Hs1.
  apply bind_ok in H as (? & ? & Hv & H); apply sget_ok in Hv as [-> ->].
  rewrite Hs1 in H by discriminate.
  apply bind_ok in H as (data1 & s2 & Hus & H).
  apply search_step in Hus as (-> & Hus_other & Hus).
  apply bind_ok in H as (? & ? & Hv & H); apply sget_ok in Hv as [-> ->].
  rewrite Hs1 in H by discriminate.
  apply bind_ok in H as (data2 & s3 & Hgs & H).
  apply search_step in Hgs as (-> & Hgs_other & Hgs).
  apply bind_ok in H as (? & ? & Hv & H); apply sget_ok in Hv as [-> ->].
  apply bind_ok in H as (data3 & s4 & Hgt & H).
  assert (Hgt_other : forall key, key <> "AUTH_LDAP_GROUP_TYPE" -> data3 !! key = data2 !! key).
  { intros key Hne.
    match type of Hgt with (if ?b then _ else _) _ = _ => destruct b end.
    - apply bind_ok in Hgt as (? & ? & _ & Hgt).
      apply bind_ok in Hgt as (? & ? & _ & Hgt).
      apply bind_ok in Hgt as (? & ? & _ & Hgt).
      injection Hgt as <- _. apply lookup_insert_ne. congruence.
    - injection Hgt as <- _. reflexivity. }
  do 3 (apply bind_ok in H as (? & ? & Hv & H); apply sget_ok in Hv as [-> ->]).
  apply bind_ok in H as (connection_options & s5 & _ & H).
  apply bind_ok in H as (? & ? & Hv & H); apply sget_ok in Hv as [-> ->].
  injection H as <- _.
  split; [|split; [|split]].
  - through_inserts; rewrite Hgt_other, Hgs_other, Hus_other by discriminate;
      rewrite lookup_insert_ne by discriminate; apply lookup_insert_eq.
  - destruct (truthy (get (settings st) "AUTH_LDAP_USER_SEARCH" VNone)).
    + through_inserts; rewrite Hgt_other, Hgs_other, Hus by discriminate;
        rewrite !lookup_insert_ne by discriminate; apply lookup_empty.
    + destruct Hus as (sc & Hsc & Hus). exists sc. split; [exact Hsc|].
      through_inserts; rewrite Hgt_other, Hgs_other by discriminate; exact Hus.
  - destruct (truthy (get (settings st) "AUTH_LDAP_GROUP_SEARCH" VNone)).
    + through_inserts; rewrite Hgt_other, Hgs, Hus_other by discriminate;
        rewrite !lookup_insert_ne by discriminate; apply lookup_empty.
    + destruct Hgs as (sc & Hsc & Hgs). exists sc. split; [exact Hsc|].
      through_inserts; rewrite Hgt_other by discriminate; exact Hgs.
  - apply scope_map_get_default.
Qed.

(** X14.  When one of the nine required LDAP settings is missing or
    falsy, [configure_ldap] returns the empty update and changes nothing.
    When it returns with the nine truthy, the update holds
    GALAXY_AUTH_LDAP_ENABLED = True.  It holds no
    AUTH_LDAP_USER_SEARCH when the settings hold a truthy one, and
    otherwise the search built from the base DN, the scope and the filter
    of the settings; likewise for AUTH_LDAP_GROUP_SEARCH.  A scope name
    other than "BASE" and "ONELEVEL" stands for the subtree scope. *)
Theorem configure_ldap_searches E st :
  let s := settings st in
  (ldap_enabled s = false -> configure_ldap E st = (Ok ∅, st))
  /\ (ldap_enabled s = true ->
      forall d st',
        configure_ldap E st = (Ok d, st') ->
        d !! "GALAXY_AUTH_LDAP_ENABLED" = Some (VBool true)
        /\ (if truthy (get s "AUTH_LDAP_USER_SEARCH" VNone)
            then d !! "AUTH_LDAP_USER_SEARCH" = None
            else exists scope,
                   scope_map_get E (get s "AUTH_LDAP_USER_SEARCH_SCOPE" VNone) = Ok scope
                   /\ d !! "AUTH_LDAP_USER_SEARCH"
                      = Some (LDAPSearch (get s "AUTH_LDAP_USER_SEARCH_BASE_DN" VNone) scope
                                (get s "AUTH_LDAP_USER_SEARCH_FILTER" VNone)))
        /\ (if truthy (get s "AUTH_LDAP_GROUP_SEARCH" VNone)
            then d !! "AUTH_LDAP_GROUP_SEARCH" = None
            else exists scope,
                   scope_map_get E (get s "AUTH_LDAP_GROUP_SEARCH_SCOPE" VNone) = Ok scope
                   /\ d !! "AUTH_LDAP_GROUP_SEARCH"
                      = Some (LDAPSearch (get s "AUTH_LDAP_GROUP_SEARCH_BASE_DN" VNone) scope
                                (get s "AUTH_LDAP_GROUP_SEARCH_FILTER" VNone))))
  /\ (forall name, name <> "BASE" -> name <> "ONELEVEL" ->
                   scope_map_get E (VStr name) = Ok (SCOPE_SUBTREE (ldap E))).
Proof.
  cbv zeta. split; [apply configure_ldap_closed|]. split; [|apply scope_map_get_default].
  intros Hon d st' Hrun.
  destruct (configure_ldap_open E st d st' Hrun Hon) as (Hen & Huser & Hgroup & _).
  auto.
Qed.

Lemma configure_ldap_searches_witness :
  exists d st',
    configure_ldap plain_env (start ldap_settings) = (Ok d, st')
    /\ d !! "AUTH_LDAP_GROUP_SEARCH" = None
    /\ exists scope, d !! "AUTH_LDAP_USER_SEARCH"
                     = Some (LDAPSearch (VStr "ou=people,dc=example,dc=org") scope
                               (VStr "(uid=%(user)s)")).
Proof.
  destruct (configure_ldap plain_env (start ldap_settings)) as [r st'] eqn:Hrun.
  destruct r as [d|e].
  - exists d, st'. split; [reflexivity|].
    assert (Hon : ldap_enabled (settings (start ldap_settings)) = true)
      by (vm_compute; reflexivity).
    destruct (proj1 (proj2 (configure_ldap_searches plain_env (start ldap_settings)))
                Hon d st' Hrun)
      as (_ & Huser & Hgroup).
    assert (Hg : truthy (get (settings (start ldap_settings)) "AUTH_LDAP_GROUP_SEARCH" VNone)
                 = true) by (vm_compute; reflexivity).
    assert (Hu : truthy (get (settings (start ldap_settings)) "AUTH_LDAP_USER_SEARCH" VNone)
                 = false) by (vm_compute; reflexivity).
    rewrite Hg in Hgroup. rewrite Hu in Huser.
    split; [exact Hgroup|].
    destruct Huser as (scope & _ & Huser). exists scope. rewrite Huser.
    vm_compute. reflexivity.
  - exfalso.
    assert (Hok : is_ok (fst (configure_ldap plain_env (start ldap_settings))) = true)
      by (vm_compute; reflexivity).
    rewrite Hrun in Hok. discriminate Hok.
Defined.

(** ** The backends of the settings and those returned *)



Lemma count_others_self (name : string) (l : list value) :
  count (VStr name) (others (VStr name) l) = 0%nat.
Proof.
  induction l as [|y l IH]; [reflexivity|].
  unfold others in *. cbn [List.filter].
  destruct (py_eq y (VStr name)) eqn:Hy; cbn [negb]; [exact IH|].
  rewrite count_cons, Hy. exact IH.
Qed.

Lemma others_idem (x : value) (l : list value) : others x (others x l) = others x l.
Proof.
  induction l as [|y l IH]; [reflexivity|].
  unfold others in *. cbn [List.filter].
  destruct (py_eq y x) eqn:Hy; cbn [negb List.filter]; [exact IH|].
  rewrite Hy. cbn [negb]. f_equal. exact IH.
Qed.


(** X15.  The deduplication at the end of
    [configure_authentication_backends] leaves at most one
    "dynaconf_merge" (one when there was any) and keeps the other backends
    in their order.  A list with more than one marker becomes the other
    backends followed by one marker; a list with at most one is left as it
    is; deduplicating twice is deduplicating once. *)
Theorem dedupe_dynaconf_merge_once (backends : list value) :
  let result := dedupe_dynaconf_merge backends in
  count MARKER result = Nat.min 1 (count MARKER backends)
  /\ others MARKER result = others MARKER backends
  /\ ((1 < count MARKER backends)%nat -> result = (others MARKER backends ++ [MARKER])%list)
  /\ ((count MARKER backends <= 1)%nat -> result = backends)
  /\ dedupe_dynaconf_merge result = result.
Proof.
  intros result. subst result. unfold dedupe_dynaconf_merge. fold MARKER.
  fold (others MARKER backends).
  assert (Hself : py_eq MARKER MARKER = true) by (apply py_eq_str_r; reflexivity).
  assert (Hone : count MARKER (others MARKER backends ++ [MARKER]) = 1%nat).
  { rewrite count_app. unfold MARKER at 1 2. rewrite count_others_self.
    rewrite count_cons. fold MARKER. rewrite Hself. reflexivity. }
  destruct (1 <? count MARKER backends)%nat eqn:Hc.
  - apply Nat.ltb_lt in Hc. split; [|split; [|split; [|split]]].
    + rewrite Hone. lia.
    + unfold others at 1. rewrite List.filter_app. fold (others MARKER (others MARKER backends)).
      rewrite others_idem. cbn [List.filter]. rewrite Hself. cbn [negb].
      apply app_nil_r.
    + reflexivity.
    + lia.
    + rewrite Hone. reflexivity.
  - apply Nat.ltb_ge in Hc. split; [|split; [|split; [|split]]].
    + lia.
    + reflexivity.
    + lia.
    + reflexivity.
    + apply Nat.ltb_ge in Hc. rewrite Hc. reflexivity.
Qed.







(** ** Keys whatever their case *)

Lemma upper_ascii_idem (c : ascii) : upper_ascii (upper_ascii c) = upper_ascii c.
Proof. destruct c as [[] [] [] [] [] [] [] []]; reflexivity. Qed.

Lemma upper_idem (s : string) : upper (upper s) = upper s.
Proof.
  induction s as [|c s IH]; [reflexivity|].
  cbn [upper]. rewrite upper_ascii_idem, IH. reflexivity.
Qed.

(** X23.  [alter_hostname_settings] treats a key as it treats the key in
    upper case, and returns the value it was given for a key that is not
    one of the three it rewrites.  For a request without the two headers
    the origin is "http://localhost:5001". *)
Theorem alter_hostname_settings_any_case E st value key :
  alter_hostname_settings E value key st = alter_hostname_settings E value (upper key) st
  /\ (upper key ∉ ALLOWED_KEYS ->
      alter_hostname_settings E value key st = (Ok value, st))
  /\ (apps_ready E = true -> upper key ∈ ALLOWED_KEYS -> current_request E = Some ∅ ->
      alter_hostname_settings E value key st
      = (Ok (VStr (if String.eqb (upper key) "TOKEN_SERVER"
                   then "http://localhost:5001/token/"
                   else "http://localhost:5001")), st)).
Proof.
  unfold alter_hostname_settings. rewrite upper_idem. split; [reflexivity|]. split.
  - intros Hout. rewrite (bool_decide_eq_false_2 _ Hout), orb_true_r. reflexivity.
  - intros -> Hin ->. rewrite (bool_decide_eq_true_2 _ Hin). cbn [negb orb].
    unfold header. rewrite !lookup_empty. cbn [default from_option].
    destruct (String.eqb (upper key) "TOKEN_SERVER"); reflexivity.
Qed.

(** ** The origins of the community site *)

Lemma substring_all (s : string) : substring 0 (String.length s) s = s.
Proof. induction s as [|c s IH]; [reflexivity|]. cbn. rewrite IH. reflexivity. Qed.

Lemma length_append (p s : string) :
  String.length (p ++ s) = (String.length p + String.length s)%nat.
Proof.
  induction p as [|c p IH]; [reflexivity|].
  change (String c p ++ s) with (String c (p ++ s)). cbn [String.length].
  rewrite IH. reflexivity.
Qed.

Lemma substring_skip (p s : string) (n : nat) :
  substring (String.length p) n (p ++ s) = substring 0 n s.
Proof.
  induction p as [|c p IH]; [reflexivity|].
  change (String c p ++ s) with (String c (p ++ s)). cbn [String.length substring].
  exact IH.
Qed.

Lemma drop_prefix_app (p s : string) : drop_prefix p (p ++ s) = Some s.
Proof.
  unfold drop_prefix. rewrite prefix_app, length_append.
  replace (String.length p + String.length s - String.length p)%nat
    with (String.length s) by lia.
  rewrite substring_skip, substring_all. reflexivity.
Qed.

Lemma prefix_split (p s : string) :
  String.prefix p s = true -> exists rest, s = p ++ rest.
Proof.
  revert s. induction p as [|c p IH]; intros s H.
  - exists s. reflexivity.
  - destruct s as [|d s]; [discriminate H|].
    cbn [String.prefix] in H. destruct (ascii_dec c d) as [->|]; [|discriminate H].
    destruct (IH s H) as (rest & ->). exists rest. reflexivity.
Qed.

Lemma drop_prefix_split (p s s' : string) : drop_prefix p s = Some s' -> s = p ++ s'.
Proof.
  unfold drop_prefix. destruct (String.prefix p s) eqn:Hp; [|discriminate].
  destruct (prefix_split p s Hp) as (rest & ->). intros H. injection H as <-.
  rewrite length_append.
  replace (String.length p + String.length rest - String.length p)%nat
    with (String.length rest) by lia.
  rewrite substring_skip, substring_all. reflexivity.
Qed.

Lemma any_char_spec (s s' : string) :
  any_char s = Some s' <-> exists c, a_char c /\ s = String c s'.
Proof.
  unfold any_char, a_char. destruct s as [|c s]; split.
  - discriminate.
  - intros (c & _ & H). discriminate H.
  - destruct (Ascii.eqb_spec c "010"%char) as [->|Hc]; [discriminate|].
    intros H. injection H as <-. eauto.
  - intros (d & Hd & H). injection H as <- <-.
    destruct (Ascii.eqb_spec c "010"%char) as [->|Hc]; [contradiction|reflexivity].
Qed.

Lemma matches_tail_spec (s : string) : matches_tail s = true <-> tail_match s.
Proof.
  unfold matches_tail, tail_match. split.
  - destruct (any_char s) as [s1|] eqn:H1; [|discriminate].
    apply any_char_spec in H1 as (c1 & Hc1 & ->).
    destruct (drop_prefix "ansible" s1) as [s2|] eqn:H2; [|discriminate].
    apply drop_prefix_split in H2 as ->.
    destruct (any_char s2) as [s3|] eqn:H3; [|discriminate].
    apply any_char_spec in H3 as (c2 & Hc2 & ->).
    intros H. apply prefix_split in H as (rest & ->).
    exists c1, c2, rest. auto.
  - intros (c1 & c2 & rest & Hc1 & Hc2 & ->).
    assert (H1 : any_char (String c1 ("ansible" ++ String c2 ("com" ++ rest)))
                 = Some ("ansible" ++ String c2 ("com" ++ rest)))
      by (apply any_char_spec; eauto).
    rewrite H1, (drop_prefix_app "ansible").
    assert (H3 : any_char (String c2 ("com" ++ rest)) = Some ("com" ++ rest))
      by (apply any_char_spec; eauto).
    rewrite H3. apply prefix_app.
Qed.

Lemma matches_star_sound (fuel : nat) (s : string) :
  matches_star fuel s = true ->
  exists mid rest, stages mid /\ s = mid ++ rest /\ tail_match rest.
Proof.
  revert s. induction fuel as [|fuel IH]; intros s H.
  - exists "", s. split; [constructor|]. split; [reflexivity|].
    apply matches_tail_spec. exact H.
  - cbn [matches_star] in H.
    apply orb_true_iff in H as [H | H]; [apply orb_true_iff in H as [H | H]|].
    + destruct (drop_prefix "-dev" s) as [s'|] eqn:Hd; [|discriminate H].
      apply drop_prefix_split in Hd as ->.
      destruct (IH s' H) as (mid & rest & Hm & -> & Ht).
      exists ("-dev" ++ mid), rest. split; [constructor; exact Hm|].
      split; [reflexivity | exact Ht].
    + destruct (drop_prefix "-stage" s) as [s'|] eqn:Hd; [|discriminate H].
      apply drop_prefix_split in Hd as ->.
      destruct (IH s' H) as (mid & rest & Hm & -> & Ht).
      exists ("-stage" ++ mid), rest. split; [constructor; exact Hm|].
      split; [reflexivity | exact Ht].
    + exists "", s. split; [constructor|]. split; [reflexivity|].
      apply matches_tail_spec. exact H.
Qed.

Lemma matches_star_complete (mid : string) :
  stages mid ->
  forall fuel rest,
    (String.length mid <= fuel)%nat -> tail_match rest ->
    matches_star fuel (mid ++ rest) = true.
Proof.
  induction 1 as [|mid Hm IH|mid Hm IH]; intros fuel rest Hfuel Ht.
  - change ("" ++ rest) with rest. destruct fuel; cbn [matches_star].
    + apply matches_tail_spec. exact Ht.
    + rewrite (proj2 (matches_tail_spec rest) Ht). apply orb_true_r.
  - rewrite length_append in Hfuel. cbn [String.length] in Hfuel.
    destruct fuel as [|fuel]; [lia|]. cbn [matches_star].
    replace (("-dev" ++ mid) ++ rest) with ("-dev" ++ (mid ++ rest)) by reflexivity.
    rewrite (drop_prefix_app "-dev"). rewrite IH by (assumption || lia). reflexivity.
  - rewrite length_append in Hfuel. cbn [String.length] in Hfuel.
    destruct fuel as [|fuel]; [lia|]. cbn [matches_star].
    replace (("-stage" ++ mid) ++ rest) with ("-stage" ++ (mid ++ rest)) by reflexivity.
    rewrite (drop_prefix_app "-stage"). rewrite IH by (assumption || lia).
    apply orb_true_iff. left. apply orb_true_r.
Qed.

Lemma community_match_spec (s : string) :
  community_match s <->
  exists mid rest, stages mid /\ tail_match rest /\ s = "galaxy" ++ mid ++ rest.
Proof.
  unfold community_match, tail_match. split.
  - intros (mid & c1 & c2 & rest & Hm & H1 & H2 & ->).
    exists mid, (String c1 ("ansible" ++ String c2 ("com" ++ rest))).
    split; [exact Hm|]. split; [|reflexivity]. exists c1, c2, rest. auto.
  - intros (mid & t & Hm & (c1 & c2 & rest & H1 & H2 & ->) & ->).
    exists mid, c1, c2, rest. auto.
Qed.

Lemma search_from_sound (fuel : nat) (s : string) :
  search_from fuel s = true ->
  exists before found, s = before ++ found /\ community_match found.
Proof.
  revert s. induction fuel as [|fuel IH]; intros s H;
    cbn [search_from] in H; apply orb_true_iff in H as [H | H].
  - destruct (drop_prefix "galaxy" s) as [s'|] eqn:Hd; [|discriminate H].
    apply drop_prefix_split in Hd as ->.
    apply matches_star_sound in H as (mid & rest & Hm & -> & Ht).
    exists "", ("galaxy" ++ mid ++ rest). split; [reflexivity|].
    apply community_match_spec. exists mid, rest. auto.
  - discriminate H.
  - destruct (drop_prefix "galaxy" s) as [s'|] eqn:Hd; [|discriminate H].
    apply drop_prefix_split in Hd as ->.
    apply matches_star_sound in H as (mid & rest & Hm & -> & Ht).
    exists "", ("galaxy" ++ mid ++ rest). split; [reflexivity|].
    apply community_match_spec. exists mid, rest. auto.
  - destruct s as [|c s]; [discriminate H|].
    destruct (IH s H) as (before & found & -> & Hf).
    exists (String c before), found. split; [reflexivity | exact Hf].
Qed.

Lemma search_from_complete (before found : string) :
  community_match found ->
  search_from (String.length (before ++ found)) (before ++ found) = true.
Proof.
  intros Hf. induction before as [|c before IH].
  - change ("" ++ found) with found.
    apply community_match_spec in Hf as (mid & rest & Hm & Ht & ->).
    destruct (String.length ("galaxy" ++ mid ++ rest)); cbn [search_from];
      rewrite (drop_prefix_app "galaxy");
      rewrite (matches_star_complete mid Hm) by (rewrite ?length_append; auto; lia);
      reflexivity.
  - change (String c before ++ found) with (String c (before ++ found)).
    cbn [String.length search_from]. rewrite IH. apply orb_true_r.
Qed.

(** X17.  The search of [configure_renderers] succeeds exactly on the
    texts that hold somewhere "galaxy", any number of "-dev" and "-stage",
    one character other than a newline, "ansible", one more such character
    and "com": the two dots of the pattern stand for any character, and
    nothing anchors the match. *)
Theorem community_origin_pattern (s : string) :
  community_origin s = true <->
  exists before found, s = before ++ found /\ community_match found.
Proof.
  unfold community_origin. split.
  - apply search_from_sound.
  - intros (before & found & -> & Hf). apply search_from_complete. exact Hf.
Qed.



(** ** The signature rule, and validating twice *)

(** X19.  The signature rule of [validate] raises exactly when
    GALAXY_REQUIRE_CONTENT_APPROVAL is not set or equals [False], and
    GALAXY_REQUIRE_SIGNATURE_FOR_APPROVAL is set to a value that does not
    equal [False]; the error is then that of the [eq] operation on the
    signature setting. *)
Theorem signature_rule_raises s e :
  validator_validate s signature_rule = Raise e <->
  e = ValidationError SIGNATURE "eq"
  /\ approval_off s
  /\ exists v, store s !! SIGNATURE = Some v /\ py_eq v (VBool false) = false.
Proof.
  unfold approval_off, signature_rule, content_approval_off. cbn.
  unfold validate_items. fold approval_key SIGNATURE.
  destruct (store s !! approval_key) as [a|]; cbn.
  - destruct (py_eq a (VBool false)); cbn.
    + destruct (store s !! SIGNATURE) as [v|]; cbn.
      * destruct (py_eq v (VBool false)) eqn:Hv.
        -- split; [discriminate|]. intros (_ & _ & w & Hw & Hf). congruence.
        -- split; [intros H; injection H as <-; eauto|]. intros (-> & _). reflexivity.
      * split; [discriminate|]. intros (_ & _ & w & Hw & _). discriminate Hw.
    + split; [discriminate|]. intros (_ & H & _). discriminate H.
  - destruct (store s !! SIGNATURE) as [v|]; cbn.
    + destruct (py_eq v (VBool false)) eqn:Hv.
      * split; [discriminate|]. intros (_ & _ & w & Hw & Hf). congruence.
      * split; [intros H; injection H as <-; eauto|]. intros (-> & _). reflexivity.
    + split; [discriminate|]. intros (_ & _ & w & Hw & _). discriminate Hw.
Qed.








(** ** Registering the hooks *)

Lemma hooks_of_bound E (names : list string) :
  Forall (fun n => n ∈ locals) names ->
  hooks_of E (strs names) = Ok (map hook_of names).
Proof.
  induction 1 as [|n names Hn _ IH]; [reflexivity|].
  cbn [strs map hooks_of Hook] in *. rewrite bool_decide_eq_true_2 by exact Hn.
  unfold strs in IH. rewrite IH. reflexivity.
Qed.

Lemma hooks_of_unbound E (good : list string) (bad : string) (rest : list value) :
  Forall (fun n => n ∈ locals) good ->
  bad ∉ locals ->
  hooks_of E (strs good ++ VStr bad :: rest) = Raise (KeyError bad).
Proof.
  intros Hgood Hbad. induction Hgood as [|n good Hn _ IH].
  - cbn [strs map app hooks_of Hook]. rewrite bool_decide_eq_false_2 by exact Hbad. reflexivity.
  - cbn [strs map app hooks_of Hook] in *. rewrite bool_decide_eq_true_2 by exact Hn.
    unfold strs in IH. rewrite IH. reflexivity.
Qed.

Lemma configure_dynamic_settings_run E st :
  hooking_import E = None ->
  truthy (hooks_setting st) = true ->
  configure_dynamic_settings E st
  = match iter (hooks_setting st) with
    | Ok func_names =>
        match hooks_of E func_names with
        | Ok hs => (Ok ({[ "_registered_hooks" :=
                             VDict [(VObj "dynaconf.hooking.Action.AFTER_GET" [], VList hs)] ]}
                        : dict),
                    logged st [enabling_notice])
        | Raise e => (Raise e, logged st [enabling_notice])
        end
    | Raise e => (Raise e, logged st [enabling_notice])
    end.
Proof.
  intros Himp Htrue. unfold configure_dynamic_settings, hooks_setting in *.
  unfold bind at 1. unfold sget at 1. rewrite Htrue. cbn [negb]. rewrite Himp.
  unfold bind, emit, lift, ret, logged, enabling_notice.
  destruct (iter _) as [func_names|e]; [|reflexivity].
  destruct (hooks_of E func_names); reflexivity.
Qed.

Lemma one_char_unbound (c : ascii) : String c "" ∉ locals.
Proof.
  unfold locals. intros H.
  repeat (apply elem_of_cons in H; destruct H as [H|H]; [discriminate H|]).
  apply elem_of_nil in H. exact H.
Qed.

(** X21.  With method hooking available, [configure_dynamic_settings]
    logs that the feature is enabled and registers under AFTER_GET one
    hook for each name of DYNACONF_AFTER_GET_HOOKS, in their order, when
    every name is bound in the function.  At the first name that is not
    bound it raises a KeyError with that name; a text in place of the
    list is read character by character and raises the KeyError of its
    first character. *)
Theorem configure_dynamic_settings_registers E st :
  hooking_import E = None ->
  (forall names,
      hooks_setting st = VList (strs names) -> names <> [] ->
      Forall (fun n => n ∈ locals) names ->
      configure_dynamic_settings E st = (Ok (registered names), logged st [enabling_notice]))
  /\ (forall good bad rest,
         hooks_setting st = VList (strs good ++ VStr bad :: rest) ->
         Forall (fun n => n ∈ locals) good -> bad ∉ locals ->
         configure_dynamic_settings E st = (Raise (KeyError bad), logged st [enabling_notice]))
  /\ (forall c name,
         hooks_setting st = VStr (String c name) ->
         configure_dynamic_settings E st
         = (Raise (KeyError (String c "")), logged st [enabling_notice])).
Proof.
  intros Himp. split; [|split].
  - intros names Hs Hne Hall.
    rewrite configure_dynamic_settings_run; [|exact Himp|].
    + rewrite Hs. cbn [iter]. rewrite hooks_of_bound by exact Hall. reflexivity.
    + rewrite Hs. destruct names; [congruence|reflexivity].
  - intros good bad rest Hs Hgood Hbad.
    rewrite configure_dynamic_settings_run; [|exact Himp|].
    + rewrite Hs. cbn [iter]. rewrite hooks_of_unbound by assumption. reflexivity.
    + rewrite Hs. destruct good; reflexivity.
  - intros c name Hs.
    rewrite configure_dynamic_settings_run; [|exact Himp|].
    + rewrite Hs. cbn [iter list_ascii_of_string map].
      match goal with
      | |- context [hooks_of E (VStr (String c "") :: ?r)] =>
          pose proof (hooks_of_unbound E [] (String c "") r
                        (List.Forall_nil _) (one_char_unbound c)) as H
      end.
      cbn [strs map app] in H. rewrite H. reflexivity.
    + rewrite Hs. reflexivity.
Qed.

Lemma configure_dynamic_settings_registers_witness :
  configure_dynamic_settings plain_env (start both_hooks)
  = (Ok (registered ["read_settings_from_cache_or_db"; "alter_hostname_settings"]),
     logged (start both_hooks) [enabling_notice]).
Proof.
  apply (configure_dynamic_settings_registers plain_env (start both_hooks) eq_refl).
  - reflexivity.
  - discriminate.
  - repeat constructor; apply bool_decide_unpack; vm_compute; exact I.
Defined.

(** ** How often a read goes to the cache and the table *)

Ltac trace_grows :=
  cbn [snd trace settings];
  eexists; split; [rewrite <- ?app_assoc; reflexivity|];
  cbn; auto.

(** X22.  [read_settings_from_cache_or_db] returns the value it was given
    and does nothing while the apps are not ready or for a key outside the
    schema.  Whatever the outcome, it only adds to the trace, and reads the
    cache at most once and the table at most once, the table never before
    the cache. *)
Theorem read_settings_from_cache_or_db_read_order E st value key :
  let run := read_settings_from_cache_or_db E value key st in
  (apps_ready E = false \/ upper key ∉ DYNAMIC_SETTINGS_SCHEMA E -> run = (Ok value, st))
  /\ exists events,
       trace (snd run) = (trace st ++ events)%list
       /\ (reads events = [] \/ reads events = [CacheRead]
           \/ reads events = [CacheRead; DbRead]).
Proof.
  cbv zeta. split.
  - intros Hoff. unfold read_settings_from_cache_or_db.
    destruct Hoff as [->|Hkey]; [reflexivity|].
    rewrite (bool_decide_eq_false_2 _ Hkey). rewrite orb_true_r. reflexivity.
  - unfold read_settings_from_cache_or_db.
    destruct (negb (apps_ready E) || _).
    { exists []. split; [cbn; rewrite app_nil_r; reflexivity|]. left. reflexivity. }
    unfold bind at 1. unfold emit at 1.
    unfold bind at 1. unfold lift at 1.
    destruct (get_settings_from_cache E) as [cached|e]; [|trace_grows].
    unfold bind at 1.
    destruct (truthy cached) eqn:Hc.
    + unfold ret at 1. cbn [fst snd]. rewrite Hc. cbn [negb].
      unfold bind at 1.
      destruct (temp_update E _ cached) as [temp [raised|]]; cbn [settings trace].
      * destruct raised; try trace_grows;
          unfold emit at 1; unfold bind at 1;
          (destruct (iter cached) as [keys|]; [|unfold lift; trace_grows]);
          unfold lift at 1; unfold bind at 1;
          (destruct (key_heads keys) as [heads|]; [|unfold lift; trace_grows]);
          unfold lift at 1; unfold bind at 1;
          destruct (bool_decide _); unfold emit, sget; trace_grows.
      * unfold bind at 1;
          (destruct (iter cached) as [keys|]; [|unfold lift; trace_grows]);
          unfold lift at 1; unfold bind at 1;
          (destruct (key_heads keys) as [heads|]; [|unfold lift; trace_grows]);
          unfold lift at 1; unfold bind at 1;
          destruct (bool_decide _); unfold emit, sget; trace_grows.
    + unfold bind at 1. unfold emit at 1. unfold bind at 1. unfold lift at 1.
      destruct (get_settings_from_db E) as [stored|e]; [|trace_grows].
      unfold ret at 1. cbn [fst snd].
      destruct (truthy stored) eqn:Hs; cbn [negb].
      * unfold bind at 1.
        destruct (temp_update E _ stored) as [temp [raised|]]; cbn [settings trace].
        -- destruct raised; try trace_grows;
             unfold emit at 1; unfold bind at 1;
             (destruct (iter stored) as [keys|]; [|unfold lift; trace_grows]);
             unfold lift at 1; unfold bind at 1;
             (destruct (key_heads keys) as [heads|]; [|unfold lift; trace_grows]);
             unfold lift at 1; unfold bind at 1;
             destruct (bool_decide _); unfold emit, sget; trace_grows.
        -- unfold bind at 1;
             (destruct (iter stored) as [keys|]; [|unfold lift; trace_grows]);
             unfold lift at 1; unfold bind at 1;
             (destruct (key_heads keys) as [heads|]; [|unfold lift; trace_grows]);
             unfold lift at 1; unfold bind at 1;
             destruct (bool_decide _); unfold emit, sget; trace_grows.
      * unfold bind, ret, emit, sget. trace_grows.
Qed.

(** ** The settings of the secondary instance *)


